(** * Piff: the GSObject model fitter (piff/gsobject_model.py)

    A shallow embedding of [GSObjectModel] and of the parts of Python, numpy,
    galsim and lmfit it relies on, followed by the properties of the
    fitting protocol.

    Conventions of the embedding.
    - Python floats are idealised as real numbers ([R]); numpy's [inf] and
      [nan] have no counterpart, a division by zero is Rocq's [x / 0].
    - A Python exception is a value of [Exc]; code that may raise lives in
      [Result] (pure code) or in [M] (code that calls an external
      collaborator, with the log of the calls it made, in order).
    - The renderer ([drawImage]), the moment estimator ([hsm]) and the
      nonlinear minimizer ([lmfit.minimize]) are external: they are the
      fields of [Ext] and every method takes them as its first argument. *)

From Stdlib Require Import Reals Lra ZArith List String Bool.
From stdpp Require Import gmap strings.
Import ListNotations.

Open Scope R_scope.

(** ** Python: exceptions and the two monads *)

Inductive Exc : Type :=
| TypeError                      (* unpacking [None] or a scalar *)
| ValueError                     (* unpacking the wrong number of values *)
| KeyError (key : string)
| RecursionError
| RuntimeError (msg : string)
| ModelFitError (msg : string)
| GalSimRangeError (msg : string).

Definition Result (A : Type) : Type := (Exc + A)%type.

Definition ok {A} (a : A) : Result A := inr a.
Definition raise {A} (e : Exc) : Result A := inl e.

Definition rbind {A B} (m : Result A) (f : A -> Result B) : Result B :=
  match m with
  | inl e => inl e
  | inr a => f a
  end.

Declare Scope result_scope.
Delimit Scope result_scope with result.
Notation "'let!' x := m 'in' k" := (rbind m (fun x => k))
  (at level 10, x name, m at level 100, k at level 200) : result_scope.
Notation "'let!' ' pat := m 'in' k" := (rbind m (fun x => match x with pat => k end))
  (at level 10, pat pattern, m at level 100, k at level 200) : result_scope.

(** ** galsim.Shear

    Modelled from the spec: galsim is an external library and is not under
    src/.  A [Shear] stores the reduced shear as the complex number
    [_g = g1 + i g2].  The distortion [(e1, e2)] has the same position angle
    and magnitude [2|g| / (1 + |g|^2)]; both conversion factors are the ones
    the source spells out in its commented lines ([g2e = 2/(1+|g|^2)],
    [e2g = 1/(1+sqrt(1-|e|^2))]).  Either constructor refuses a magnitude
    above 1.  Shears compose by the shear-addition law
    [(a + b) / (1 + conj(a) b)]. *)
Module Shear.

Record t : Type := mk { _g : R * R }.

Definition _g2e (absgsq : R) : R := 2 / (1 + absgsq).
Definition _e2g (absesq : R) : R := 1 / (1 + sqrt (1 - absesq)).

(** [galsim.Shear(g1=g1, g2=g2)] *)
Definition of_g (g1 g2 : R) : Result t :=
  if Rlt_dec 1 (sqrt (g1 * g1 + g2 * g2))
  then raise (GalSimRangeError "Requested shear exceeds 1.")
  else ok (mk (g1, g2)).

(** [galsim.Shear(e1=e1, e2=e2)] *)
Definition of_e (e1 e2 : R) : Result t :=
  let absesq := e1 ^ 2 + e2 ^ 2 in
  if Rlt_dec 1 absesq
  then raise (GalSimRangeError "Requested distortion exceeds 1.")
  else ok (mk (e1 * _e2g absesq, e2 * _e2g absesq)).

Definition g1 (s : t) : R := fst (_g s).
Definition g2 (s : t) : R := snd (_g s).
Definition absgsq (s : t) : R := g1 s ^ 2 + g2 s ^ 2.
Definition e1 (s : t) : R := g1 s * _g2e (absgsq s).
Definition e2 (s : t) : R := g2 s * _g2e (absgsq s).

(** Complex arithmetic on pairs, as far as the addition law needs it. *)
Definition cadd (a b : R * R) : R * R := (fst a + fst b, snd a + snd b).
Definition cmul (a b : R * R) : R * R :=
  (fst a * fst b - snd a * snd b, fst a * snd b + snd a * fst b).
Definition cconj (a : R * R) : R * R := (fst a, - snd a).
Definition cdiv (a b : R * R) : R * R :=
  let d := fst b * fst b + snd b * snd b in
  ((fst a * fst b + snd a * snd b) / d, (snd a * fst b - fst a * snd b) / d).

Definition neg (a : t) : t := mk (- fst (_g a), - snd (_g a)).
Definition add (a b : t) : t :=
  mk (cdiv (cadd (_g a) (_g b)) (cadd (1, 0) (cmul (cconj (_g a)) (_g b)))).
Definition sub (a b : t) : t := add a (neg b).

End Shear.


(** ** Python: unpacking, dictionaries, attributes *)

Open Scope result_scope.

(** The right-hand side of [a, b, c = v] must be iterable. *)
Definition iter_array (v : option (list R)) : Result (list R) :=
  match v with
  | None => raise TypeError
  | Some l => ok l
  end.

Definition unpack3 (l : list R) : Result (R * R * R) :=
  match l with
  | [a; b; c] => ok (a, b, c)
  | _ => raise ValueError
  end.

Definition unpack5 (l : list R) : Result (R * R * R * R * R) :=
  match l with
  | [a; b; c; d; e] => ok (a, b, c, d, e)
  | _ => raise ValueError
  end.

Definition unpack6 (l : list R) : Result (R * R * R * R * R * R) :=
  match l with
  | [a; b; c; d; e; f] => ok (a, b, c, d, e, f)
  | _ => raise ValueError
  end.

Definition unpack7 (l : list R) : Result (R * R * R * R * R * R * R) :=
  match l with
  | [a; b; c; d; e; f; g] => ok (a, b, c, d, e, f, g)
  | _ => raise ValueError
  end.

(** [x != y] on floats *)
Definition Rneqb (x y : R) : bool := if Req_dec_T x y then false else true.

(** [d[key]] *)
Definition getitem {V} (d : gmap string V) (key : string) : Result V :=
  match d !! key with
  | Some v => ok v
  | None => raise (KeyError key)
  end.

(** What [dir({})] lists: the attributes of a [dict] are those of its class,
    whatever keys it holds. *)
Definition dict_attributes : list string :=
  [ "__class__"; "__class_getitem__"; "__contains__"; "__delattr__";
    "__delitem__"; "__dir__"; "__doc__"; "__eq__"; "__format__"; "__ge__";
    "__getattribute__"; "__getitem__"; "__gt__"; "__hash__"; "__init__";
    "__init_subclass__"; "__ior__"; "__iter__"; "__le__"; "__len__"; "__lt__";
    "__ne__"; "__new__"; "__or__"; "__reduce__"; "__reduce_ex__"; "__repr__";
    "__reversed__"; "__ror__"; "__setattr__"; "__setitem__"; "__sizeof__";
    "__str__"; "__subclasshook__"; "clear"; "copy"; "fromkeys"; "get"; "items";
    "keys"; "pop"; "popitem"; "setdefault"; "update"; "values" ]%string.

(** [hasattr(d, name)] for a [dict] [d] *)
Definition hasattr_dict {V} (d : gmap string V) (name : string) : bool :=
  existsb (String.eqb name) dict_attributes.

Close Scope result_scope.

(** ** numpy: the array operations of the source, on flattened pixel arrays

    The stamps of one star (image, weight, rendered model) share one pixel
    grid, so the elementwise operations combine equally long arrays. *)
Module np.

Definition sum (a : list R) : R := fold_right Rplus 0 a.
Definition mul (a b : list R) : list R := zip_with Rmult a b.
Definition sub (a b : list R) : list R := zip_with Rminus a b.
Definition smul (k : R) (a : list R) : list R := map (Rmult k) a.
Definition square (a : list R) : list R := map (fun x => x ^ 2) a.
Definition sqrt (a : list R) : list R := map R_sqrt.sqrt a.

Definition nonzero (x : R) : bool := Rneqb x 0.
Definition count_nonzero (a : list R) : Z :=
  Z.of_nat (length (List.filter nonzero a)).

End np.

(** ** galsim: images and profiles *)

Definition PositionD : Type := (R * R)%type.

Definition pos_sub (a b : PositionD) : PositionD := (fst a - fst b, snd a - snd b).
Definition pos_neg (a : PositionD) : PositionD := (- fst a, - snd a).

Module Image.
Record t : Type := mk { array : list R; true_center : PositionD }.
(** [image.copy()], [galsim.Image(image, dtype=float)]: values are not shared. *)
Definition copy (im : t) : t := im.
End Image.

(** The [method] argument of [drawImage]. *)
Inductive Method : Type := auto | no_pixel.

(** A [GSObject] is the fiducial profile under the transformations the
    source applies to it; the renderer gives it its meaning. *)
Inductive GSObject : Type :=
| Fiducial (repr : string)
| WithFlux (p : GSObject) (flux : R)
| Dilate (p : GSObject) (scale : R)
| ShearBy (p : GSObject) (s : Shear.t)
| Shift (p : GSObject) (dx dy : R)
| ScaleFlux (p : GSObject) (flux : R).

(** [p.shear(g1=g1, g2=g2)] builds the [Shear] first. *)
Definition gs_shear (p : GSObject) (g1 g2 : R) : Result GSObject :=
  rbind (Shear.of_g g1 g2) (fun s => ok (ShearBy p s)).

(** ** lmfit: parameter sets and results *)
Module lmfit.

(** [min = None] and [max = None] are lmfit's defaults, -inf and +inf. *)
Record Param : Type := mkParam {
  name : string;
  value : R;
  vary : bool;
  min : option R;
  max : option R
}.

(** [lmfit.Parameters]: an ordered dictionary, by name. *)
Definition ParamSet : Type := list Param.

Definition add (ps : ParamSet) (n : string) (v : R) (vy : bool)
    (lo hi : option R) : ParamSet :=
  ps ++ [mkParam n v vy lo hi].

Fixpoint getitem (ps : ParamSet) (n : string) : Result Param :=
  match ps with
  | [] => raise (KeyError n)
  | p :: ps' => if String.eqb (name p) n then ok p else getitem ps' n
  end.

(** [list(ps.valuesdict().values())] *)
Definition values (ps : ParamSet) : list R := map value ps.

Record MinimizerResult : Type := mkResult {
  params : ParamSet;
  success : bool;
  chisqr : R
}.

End lmfit.

(** ** Stars

    Modelled from the spec: piff/star.py is not under src/.  The records
    hold the fields of the spec's data model; [StarData.new] is the
    constructor call [StarData(image, image_pos, weight, pointing)] of the
    source, which receives nothing else: what it records besides its
    arguments is [default_properties] of them. *)

Inductive PropVal : Type :=
| PScalar (x : R)
| PTuple (xs : list R).

Definition iter_prop (v : PropVal) : Result (list R) :=
  match v with
  | PScalar _ => raise TypeError
  | PTuple xs => ok xs
  end.

Module StarData.
Record t : Type := mk {
  image : Image.t;
  image_pos : PositionD;
  weight : Image.t;
  pointing : option PositionD;
  field_pos : option PositionD;
  orig_weight : Image.t;
  properties : gmap string PropVal
}.

Definition new (default_properties : Image.t -> PositionD -> gmap string PropVal)
    (image : Image.t) (image_pos : PositionD) (weight : Image.t)
    (pointing : option PositionD) : t :=
  mk image image_pos weight pointing None weight (default_properties image image_pos).

Definition copy (sd : t) : t := sd.

(** [sd.properties[key] = v] *)
Definition set_property (sd : t) (key : string) (v : PropVal) : t :=
  mk (image sd) (image_pos sd) (weight sd) (pointing sd) (field_pos sd)
     (orig_weight sd) (<[key := v]> (properties sd)).

(** [sd.getImage()] *)
Definition getImage (sd : t) : Image.t * Image.t * PositionD :=
  (image sd, weight sd, image_pos sd).
End StarData.

Module StarFit.
Record t : Type := mk {
  params : option (list R);
  flux : R;
  center : R * R;
  alpha : option (list R);
  beta : option (list (list R));
  chisq : option R;
  dof : option Z
}.
End StarFit.

Module Star.
Record t : Type := mk { data : StarData.t; fit : StarFit.t }.
Definition image (s : t) : Image.t := StarData.image (data s).
Definition weight (s : t) : Image.t := StarData.weight (data s).
Definition image_pos (s : t) : PositionD := StarData.image_pos (data s).
Definition flux (s : t) : R := StarFit.flux (fit s).
End Star.

(** ** External collaborators and the log of calls to them *)

Inductive Call : Type :=
| CallHsm (star : Star.t)
| CallDrawImage (prof : GSObject) (image : Image.t) (method : Method) (offset : PositionD)
| CallMinimize (params : lmfit.ParamSet) (star : Star.t).

Definition M (A : Type) : Type := (Result A * list Call)%type.

Definition mret {A} (a : A) : M A := (ok a, []).
Definition mraise {A} (e : Exc) : M A := (raise e, []).
Definition lift {A} (r : Result A) : M A := (r, []).

Definition mbind {A B} (m : M A) (f : A -> M B) : M B :=
  match m with
  | (inl e, log) => (inl e, log)
  | (inr a, log) => let (r, log') := f a in (r, log ++ log')
  end.

Declare Scope m_scope.
Delimit Scope m_scope with m.
Notation "'let*' x := m 'in' k" := (mbind m (fun x => k))
  (at level 10, x name, m at level 100, k at level 200) : m_scope.
Notation "'let*' ' pat := m 'in' k" := (mbind m (fun x => match x with pat => k end))
  (at level 10, pat pattern, m at level 100, k at level 200) : m_scope.

Definition HsmResult : Type := (R * R * R * R * R * R * Z)%type.

(** The status flag, last of the seven values. *)
Definition hsm_flag (r : HsmResult) : Z := snd r.

(** Modelled from the spec: [piff.util.hsm] is not under src/; it is the
    moment estimator of the spec (section 6), a function from a star to the
    seven values.  The other fields belong to galsim, lmfit and piff/star.py. *)
Record Ext : Type := mkExt {
  (** [piff.util.hsm]: flux, centroid, size, shape and status flag of a star *)
  hsm : Star.t -> HsmResult;
  (** [prof.drawImage(image, method=, offset=)] *)
  drawImage : GSObject -> Image.t -> Method -> PositionD -> Image.t;
  (** [lmfit.minimize(resid, params)]; an exception of the residual escapes it *)
  minimize : (lmfit.ParamSet -> M (list R)) -> lmfit.ParamSet ->
             Result lmfit.MinimizerResult;
  (** [gsobj.centroid] *)
  centroid : GSObject -> PositionD;
  (** what [StarData] records of its own accord *)
  default_properties : Image.t -> PositionD -> gmap string PropVal
}.

Definition call_hsm (E : Ext) (star : Star.t) : M HsmResult :=
  (ok (hsm E star), [CallHsm star]).

Definition call_drawImage (E : Ext) (prof : GSObject) (image : Image.t)
    (method : Method) (offset : PositionD) : M Image.t :=
  (ok (drawImage E prof image method offset), [CallDrawImage prof image method offset]).

Definition call_minimize (E : Ext) (resid : lmfit.ParamSet -> M (list R))
    (params : lmfit.ParamSet) (star : Star.t) : M lmfit.MinimizerResult :=
  (minimize E resid params, [CallMinimize params star]).

(** ** The parameter basis converter (static methods of [GSObjectModel]) *)

Open Scope result_scope.

Definition convert_to_unnormalized_basis (scale g1 g2 : R) : Result (R * R * R) :=
  let! shear := Shear.of_g g1 g2 in
  let e1norm := Shear.e1 shear in
  let e2norm := Shear.e2 shear in
  let e0 := sqrt (4 * scale ^ 4 / (1 - e1norm ^ 2 - e2norm ^ 2)) in
  let e1 := e1norm * e0 in
  let e2 := e2norm * e0 in
  ok (e0, e1, e2).

Definition convert_from_unnormalized_basis (e0 e1 e2 : R) : Result (R * R * R) :=
  let e1norm := e1 / e0 in
  let e2norm := e2 / e0 in
  let! shear := Shear.of_e e1norm e2norm in
  let g1 := Shear.g1 shear in
  let g2 := Shear.g2 shear in
  let scale := sqrt (sqrt (e0 ^ 2 - e1 ^ 2 - e2 ^ 2) * (1 / 2)) in
  ok (scale, g1, g2).

Close Scope result_scope.

(** The closed form of e0 on valid input: [2 scale^2 (1 + |g|^2) / (1 - |g|^2)]. *)
Definition unnormalized_e0 (scale g1 g2 : R) : R :=
  2 * scale ^ 2 * (1 + (g1 ^ 2 + g2 ^ 2)) / (1 - (g1 ^ 2 + g2 ^ 2)).

(** ** GSObjectModel *)

Record GSObjectModel : Type := mkModel {
  gsobj : GSObject;
  _fastfit : bool;
  _force_model_center : bool;
  _unnormalized_basis : bool;
  _method : Method;
  _nparams : Z
}.

(** [GSObjectModel.__init__] *)
Definition GSObjectModel_init (E : Ext) (gsobj : GSObject)
    (fastfit force_model_center include_pixel unnormalized_basis : bool) : GSObjectModel :=
  let c := pos_neg (centroid E gsobj) in
  mkModel (Shift (WithFlux gsobj 1) (fst c) (snd c))
          fastfit force_model_center unnormalized_basis
          (if include_pixel then auto else no_pixel)
          (if force_model_center then 3%Z else 5%Z).

Open Scope result_scope.

Definition getProfile (self : GSObjectModel) (params : option (list R)) : Result GSObject :=
  let! '(du, dv, scale, g1, g2) :=
    if _force_model_center self
    then (let! l := iter_array params in
          let! '(scale, g1, g2) := unpack3 l in
          ok (0, 0, scale, g1, g2))
    else (let! l := iter_array params in unpack5 l) in
  let! '(scale, g1, g2) :=
    if _unnormalized_basis self
    then convert_from_unnormalized_basis scale g1 g2
    else ok (scale, g1, g2) in
  let! sheared := gs_shear (Dilate (gsobj self) scale) g1 g2 in
  ok (Shift sheared du dv).

Close Scope result_scope.
Open Scope m_scope.

Definition draw (E : Ext) (self : GSObjectModel) (star : Star.t) : M Star.t :=
  let* prof0 := lift (getProfile self (StarFit.params (Star.fit star))) in
  let center := StarFit.center (Star.fit star) in
  let prof := ScaleFlux (Shift prof0 (fst center) (snd center)) (StarFit.flux (Star.fit star)) in
  let image := Image.copy (Star.image star) in
  let* image := call_drawImage E prof image (_method self)
                  (pos_sub (Star.image_pos star) (Image.true_center image)) in
  let data := StarData.new (default_properties E) image (Star.image_pos star)
                (Star.weight star) (StarData.pointing (Star.data star)) in
  mret (Star.mk data (Star.fit star)).

Definition moment_fit (E : Ext) (self : GSObjectModel) (star : Star.t)
    : M (R * R * R * R * R * R) :=
  let* '(flux, cenu, cenv, size, g1, g2) :=
    lift (rbind (rbind (getitem (StarData.properties (Star.data star)) "hsm") iter_prop)
                unpack6) in
  let* shape := lift (Shear.of_g g1 g2) in
  let* drawn := draw E self star in
  let* '(ref_flux, ref_cenu, ref_cenv, ref_size, ref_g1, ref_g2, flag) := call_hsm E drawn in
  let* ref_shape := lift (Shear.of_g ref_g1 ref_g2) in
  if negb (flag =? 0)%Z
  then mraise (ModelFitError "Error calculating model moments for this star.")
  else
  let param_flux := StarFit.flux (Star.fit star) in
  let* '(param_du, param_dv, param_scale, param_g1, param_g2) :=
    lift (if _force_model_center self
          then rbind (rbind (iter_array (StarFit.params (Star.fit star))) unpack3)
                 (fun '(param_scale, param_g1, param_g2) =>
                    let '(param_du, param_dv) := StarFit.center (Star.fit star) in
                    ok (param_du, param_dv, param_scale, param_g1, param_g2))
          else rbind (iter_array (StarFit.params (Star.fit star))) unpack5) in
  (* the third value of the conversion is bound to [param_2]: [param_g2] keeps
     its stored value *)
  let* '(param_scale, param_g1, param_g2) :=
    lift (if _unnormalized_basis self
          then rbind (convert_from_unnormalized_basis param_scale param_g1 param_g2)
                 (fun '(param_scale, param_g1, param_2) => ok (param_scale, param_g1, param_g2))
          else ok (param_scale, param_g1, param_g2)) in
  let* param_shear := lift (Shear.of_g param_g1 param_g2) in
  let param_flux := param_flux * (flux / ref_flux) in
  let param_du := param_du + (cenu - ref_cenu) in
  let param_dv := param_dv + (cenv - ref_cenv) in
  let param_scale := param_scale * (size / ref_size) in
  let param_shear := Shear.add param_shear (Shear.sub shape ref_shape) in
  let param_g1 := Shear.g1 param_shear in
  let param_g2 := Shear.g2 param_shear in
  let* '(param_scale, param_g1, param_g2) :=
    lift (if _unnormalized_basis self
          then convert_to_unnormalized_basis param_scale param_g1 param_g2
          else ok (param_scale, param_g1, param_g2)) in
  mret (param_flux, param_du, param_dv, param_scale, param_g1, param_g2).

Definition _lmfit_resid (E : Ext) (self : GSObjectModel) (lmparams : lmfit.ParamSet)
    (star : Star.t) : M (list R) :=
  let '(image, weight, image_pos) := StarData.getImage (Star.data star) in
  let* '(flux, du, dv, scale, g1, g2) :=
    lift (if _unnormalized_basis self
          then rbind (unpack6 (lmfit.values lmparams))
                 (fun '(flux, du, dv, e0, e1, e2) =>
                    rbind (convert_from_unnormalized_basis e0 e1 e2)
                      (fun '(scale, g1, g2) => ok (flux, du, dv, scale, g1, g2)))
          else unpack6 (lmfit.values lmparams)) in
  let* sheared := lift (gs_shear (Dilate (gsobj self) scale) g1 g2) in
  let prof := ScaleFlux (Shift sheared du dv) flux in
  let model_image := Image.copy image in
  let* model_image := call_drawImage E prof model_image (_method self)
                        (pos_sub image_pos (Image.true_center model_image)) in
  mret (np.mul (np.sqrt (Image.array weight))
               (np.sub (Image.array model_image) (Image.array image))).

(** [['scale', 'e0'][b]], [[0.7, 5][b]]: a list indexed by a boolean *)
Definition index_bool {A} (x0 x1 : A) (b : bool) : A := if b then x1 else x0.

Definition _lmfit_params (E : Ext) (self : GSObjectModel) (star : Star.t)
    (vary_params vary_flux vary_center : bool) : M lmfit.ParamSet :=
  let* '(flux, du, dv, scale, g1, g2) :=
    match StarFit.params (Star.fit star) with
    | None =>
        (* seven names are bound to the six values [moment_fit] returns *)
        let* '(flux, du, dv, scale, g1, g2) := moment_fit E self star in
        let* '(flux, du, dv, scale, g1, g2, flag) :=
          lift (unpack7 [flux; du; dv; scale; g1; g2]) in
        if Rneqb flag 0
        then mraise (RuntimeError "Error initializing star fit values using hsm.")
        else mret (flux, du, dv, scale, g1, g2)
    | Some p =>
        let flux := StarFit.flux (Star.fit star) in
        if _force_model_center self
        then let '(du, dv) := StarFit.center (Star.fit star) in
             let* '(scale, g1, g2) := lift (unpack3 p) in
             mret (flux, du, dv, scale, g1, g2)
        else let* '(du, dv, scale, g1, g2) := lift (unpack5 p) in
             mret (flux, du, dv, scale, g1, g2)
    end in
  let ub := _unnormalized_basis self in
  let params := [] in
  let params := lmfit.add params "flux" flux vary_flux (Some 0) None in
  let params := lmfit.add params "du" du vary_center None None in
  let params := lmfit.add params "dv" dv vary_center None None in
  let params := lmfit.add params (index_bool "scale" "e0" ub)%string scale vary_params
                  (Some 0) None in
  let maxg := index_bool (7 / 10) 5 ub in
  let params := lmfit.add params (index_bool "g1" "e1" ub)%string g1 vary_params
                  (Some (- maxg)) (Some maxg) in
  let params := lmfit.add params (index_bool "g2" "e2" ub)%string g2 vary_params
                  (Some (- maxg)) (Some maxg) in
  mret params.

Definition _lmfit_minimize (E : Ext) (self : GSObjectModel) (params : lmfit.ParamSet)
    (star : Star.t) : M lmfit.MinimizerResult :=
  call_minimize E (fun lmparams => _lmfit_resid E self lmparams star) params star.

(** [GSObjectModel.lmfit]; the plain name is the module of the library. *)
Definition lmfit_ (E : Ext) (self : GSObjectModel) (star : Star.t)
    : M (R * R * R * R * R * R) :=
  let* params := _lmfit_params E self star true true true in
  let* results := _lmfit_minimize E self params star in
  let* '(flux, du, dv, scale, g1, g2) :=
    lift (unpack6 (lmfit.values (lmfit.params results))) in
  if negb (lmfit.success results)
  then mraise (RuntimeError "Error fitting with lmfit.")
  else mret (flux, du, dv, scale, g1, g2).

Definition with_hsm (E : Ext) (star : Star.t) : M Star.t :=
  if negb (hasattr_dict (StarData.properties (Star.data star)) "hsm")
  then
    let* '(flux, cenu, cenv, size, g1, g2, flag) := call_hsm E star in
    if negb (flag =? 0)%Z
    then mraise (RuntimeError "Error initializing star fit values using hsm.")
    else
      let sd := StarData.copy (Star.data star) in
      let sd := StarData.set_property sd "hsm" (PTuple [flux; cenu; cenv; size; g1; g2]) in
      mret (Star.mk sd (Star.fit star))
  else mret star.

Definition reflux (E : Ext) (self : GSObjectModel) (star : Star.t) (fit_center : bool)
    : M Star.t :=
  let do_center := fit_center && _force_model_center self in
  if do_center
  then
    let* params := _lmfit_params E self star false true true in
    let* results := _lmfit_minimize E self params star in
    let* pflux := lift (lmfit.getitem (lmfit.params results) "flux") in
    let* pdu := lift (lmfit.getitem (lmfit.params results) "du") in
    let* pdv := lift (lmfit.getitem (lmfit.params results) "dv") in
    mret (Star.mk (Star.data star)
            (StarFit.mk (StarFit.params (Star.fit star))
               (lmfit.value pflux)
               (lmfit.value pdu, lmfit.value pdv)
               (StarFit.alpha (Star.fit star))
               (StarFit.beta (Star.fit star))
               (Some (lmfit.chisqr results))
               (Some (np.count_nonzero (Image.array (StarData.weight (Star.data star))) - 3)%Z)))
  else
    let '(image, weight, image_pos) := StarData.getImage (Star.data star) in
    let* drawn := draw E self star in
    let model_image := Star.image drawn in
    let flux_ratio :=
      np.sum (np.mul (np.mul (Image.array weight) (Image.array image))
                     (Image.array model_image))
      / np.sum (np.mul (Image.array weight) (np.square (Image.array model_image))) in
    let new_chisq :=
      np.sum (np.mul (Image.array weight)
                (np.square (np.sub (Image.array image)
                                   (np.smul flux_ratio (Image.array model_image))))) in
    mret (Star.mk (Star.data star)
            (StarFit.mk (StarFit.params (Star.fit star))
               (Star.flux star * flux_ratio)
               (StarFit.center (Star.fit star))
               (StarFit.alpha (Star.fit star))
               (StarFit.beta (Star.fit star))
               (Some new_chisq)
               (Some (np.count_nonzero (Image.array weight) - 1)%Z))).

(** [fit] and [initialize] call each other.  Each is written over the other
    one; [fit_rec] ties the knot with the depth of the Python call stack that
    is left, and raises [RecursionError] when none is. *)
Definition fit_body (initialize : Star.t -> M Star.t) (E : Ext) (self : GSObjectModel)
    (star : Star.t) (fastfit : option bool) : M Star.t :=
  let fastfit := match fastfit with None => _fastfit self | Some b => b end in
  let* star :=
    if negb (hasattr_dict (StarData.properties (Star.data star)) "hsm")
    then initialize star
    else mret star in
  let* '(flux, du, dv, scale, g1, g2) :=
    if fastfit then moment_fit E self star else lmfit_ E self star in
  let '(params, center) :=
    if _force_model_center self
    then ([scale; g1; g2], (du, dv))
    else ([du; dv; scale; g1; g2], (0, 0)) in
  let* prof0 := lift (getProfile self (Some params)) in
  let prof := ScaleFlux prof0 flux in
  let model_image := Image.copy (Star.image star) in
  let* model_image :=
    call_drawImage E (Shift prof (fst center) (snd center)) model_image (_method self)
      (pos_sub (Star.image_pos star) (Image.true_center model_image)) in
  let chisq :=
    np.sum (np.mul (Image.array (Star.weight star))
              (np.square (np.sub (Image.array (Star.image star))
                                 (Image.array model_image)))) in
  let dof := (np.count_nonzero (Image.array (Star.weight star)) - _nparams self)%Z in
  let fit := StarFit.mk (Some params) flux center None None (Some chisq) (Some dof) in
  mret (Star.mk (Star.data star) fit).

Definition initialize_body (fit : Star.t -> option bool -> M Star.t) (E : Ext)
    (self : GSObjectModel) (star : Star.t) : M Star.t :=
  let* star := with_hsm E star in
  let* star :=
    match StarFit.params (Star.fit star) with
    | None =>
        let params := if _force_model_center self
                      then [1; 0; 0]
                      else [0; 0; 1; 0; 0] in
        let fit_ := StarFit.mk (Some params) 1 (0, 0) None None None None in
        let star := Star.mk (Star.data star) fit_ in
        fit star (Some true)
    | Some _ => mret star
    end in
  reflux E self star false.

Fixpoint fit_rec (depth : nat) (E : Ext) (self : GSObjectModel) (star : Star.t)
    (fastfit : option bool) : M Star.t :=
  match depth with
  | O => mraise RecursionError
  | S d => fit_body (initialize_body (fit_rec d E self) E self) E self star fastfit
  end.

(** Python's default recursion limit.  The two methods never stack up more
    than [fit -> initialize -> fit -> initialize] ([fit_rec_stable]). *)
Definition recursion_limit : nat := 1000%nat.

Definition fit (E : Ext) (self : GSObjectModel) (star : Star.t) (fastfit : option bool)
    : M Star.t :=
  fit_rec recursion_limit E self star fastfit.

Definition initialize (E : Ext) (self : GSObjectModel) (star : Star.t) : M Star.t :=
  initialize_body (fit_rec recursion_limit E self) E self star.

Close Scope m_scope.


(** ** Abbreviations used in the statements *)

(** The profile [draw] renders, and where it renders it. *)
Definition drawn_profile (star : Star.t) (prof0 : GSObject) : GSObject :=
  ScaleFlux (Shift prof0 (fst (StarFit.center (Star.fit star)))
                         (snd (StarFit.center (Star.fit star))))
            (StarFit.flux (Star.fit star)).

Definition draw_offset (star : Star.t) : PositionD :=
  pos_sub (Star.image_pos star) (Image.true_center (Star.image star)).

(** The layout invariant of the spec: three parameters and a separate center
    when the model center is forced, five parameters otherwise. *)
Definition decode_layout (self : GSObjectModel) (fit : StarFit.t)
    : option (R * R * R * R * R) :=
  match StarFit.params fit with
  | Some [scale; g1; g2] =>
      if _force_model_center self
      then Some (fst (StarFit.center fit), snd (StarFit.center fit), scale, g1, g2)
      else None
  | Some [du; dv; scale; g1; g2] =>
      if _force_model_center self then None else Some (du, dv, scale, g1, g2)
  | _ => None
  end.

(** A value within the bounds of a parameter; a candidate parameter set
    that keeps the names and the bounds of the set the minimizer was given. *)
Definition in_bounds (p : lmfit.Param) (v : R) : Prop :=
  match lmfit.min p with Some lo => lo <= v | None => True end /\
  match lmfit.max p with Some hi => v <= hi | None => True end.

Definition respects_bounds (ps q : lmfit.ParamSet) : Prop :=
  Forall2 (fun p p' => lmfit.name p' = lmfit.name p /\ in_bounds p (lmfit.value p')) ps q.

(** ** The moment-matching update as the spec words it (4.4)

    Flux, center, size and shape: of the fit, of the data, of the rendered
    model. *)
Definition Moments : Type := (R * R * R * R * R * R)%type.

Open Scope result_scope.

(** flux' = flux (flux_d / flux_r), center' = center + (cen_d - cen_r),
    scale' = scale (size_d / size_r), shape' = shape + (shape_d - shape_r) by
    shear addition; the fit is in the normalized basis. *)
Definition moment_update (fitv d r : Moments) : Result Moments :=
  let '(flux, du, dv, scale, g1, g2) := fitv in
  let '(flux_d, cenu_d, cenv_d, size_d, g1_d, g2_d) := d in
  let '(flux_r, cenu_r, cenv_r, size_r, g1_r, g2_r) := r in
  let! shape_d := Shear.of_g g1_d g2_d in
  let! shape_r := Shear.of_g g1_r g2_r in
  let! shape := Shear.of_g g1 g2 in
  let shape' := Shear.add shape (Shear.sub shape_d shape_r) in
  ok (flux * (flux_d / flux_r),
      du + (cenu_d - cenu_r),
      dv + (cenv_d - cenv_r),
      scale * (size_d / size_r),
      Shear.g1 shape', Shear.g2 shape').

(** In the unnormalized basis the stored (e0, e1, e2) are converted to
    (scale, g1, g2), updated there, and converted back. *)
Definition momentFit_spec (unnormalized : bool) (fitv d r : Moments) : Result Moments :=
  if unnormalized
  then
    let '(flux, du, dv, e0, e1, e2) := fitv in
    let! '(scale, g1, g2) := convert_from_unnormalized_basis e0 e1 e2 in
    let! '(flux', du', dv', scale', g1', g2') :=
      moment_update (flux, du, dv, scale, g1, g2) d r in
    let! '(e0', e1', e2') := convert_to_unnormalized_basis scale' g1' g2' in
    ok (flux', du', dv', e0', e1', e2')
  else moment_update fitv d r.

(** What [moment_fit] computes once the moments are at hand: the third
    value of the first conversion is dropped and the stored [c] is used as
    g2. *)
Definition moment_fit_value (unnormalized : bool) (fitv d r : Moments) : Result Moments :=
  let '(flux, du, dv, a, b, c) := fitv in
  let '(flux_d, cenu_d, cenv_d, size_d, g1_d, g2_d) := d in
  let '(flux_r, cenu_r, cenv_r, size_r, g1_r, g2_r) := r in
  let! shape_d := Shear.of_g g1_d g2_d in
  let! shape_r := Shear.of_g g1_r g2_r in
  let! '(scale, g1, g2) :=
    if unnormalized
    then rbind (convert_from_unnormalized_basis a b c)
           (fun '(scale, g1, _) => ok (scale, g1, c))
    else ok (a, b, c) in
  let! shape := Shear.of_g g1 g2 in
  let shape' := Shear.add shape (Shear.sub shape_d shape_r) in
  let! '(scale', g1', g2') :=
    if unnormalized
    then convert_to_unnormalized_basis (scale * (size_d / size_r))
           (Shear.g1 shape') (Shear.g2 shape')
    else ok (scale * (size_d / size_r), Shear.g1 shape', Shear.g2 shape') in
  ok (flux * (flux_d / flux_r),
      du + (cenu_d - cenu_r),
      dv + (cenv_d - cenv_r),
      scale', g1', g2').

Close Scope result_scope.

(** The star [draw] returns when the profile is [prof0]. *)
Definition drawn_star (E : Ext) (self : GSObjectModel) (star : Star.t) (prof0 : GSObject)
    : Star.t :=
  Star.mk (StarData.new (default_properties E)
             (drawImage E (drawn_profile star prof0) (Star.image star) (_method self)
                (draw_offset star))
             (Star.image_pos star) (Star.weight star) (StarData.pointing (Star.data star)))
          (Star.fit star).

(** ** Concrete collaborators, models and stars, for the examples *)
Module Example.

(** Moments of a round, centred, unit-flux star; status flag [flag]. *)
Definition hsm_const (flag : Z) (_ : Star.t) : HsmResult := (1, 0, 0, 1, 0, 0, flag).

(** A renderer that draws the same two pixels whatever the profile, a
    minimizer that stops at its starting point. *)
Definition ext (flag : Z) : Ext :=
  mkExt (hsm_const flag)
        (fun _ image _ _ => Image.mk [1; 2] (Image.true_center image))
        (fun _ ps => ok (lmfit.mkResult ps true 0))
        (fun _ => (0, 0))
        (fun _ _ => ∅).

Definition gaussian : GSObject := Fiducial "galsim.Gaussian(sigma=1.0)".

(** [force_model_center=True], normalized and unnormalized basis *)
Definition model_n : GSObjectModel := GSObjectModel_init (ext 0) gaussian false true true false.
Definition model_u : GSObjectModel := GSObjectModel_init (ext 0) gaussian false true true true.

Definition stamp : Image.t := Image.mk [2; 4] (0, 0).
Definition ones : Image.t := Image.mk [1; 1] (0, 0).

Definition cached : gmap string PropVal := {[ "hsm" := PTuple [1; 0; 0; 1; 0; 0] ]}.

Definition star_data (props : gmap string PropVal) : StarData.t :=
  StarData.mk stamp (0, 0) ones None None ones props.

Definition star_with (props : gmap string PropVal) (params : option (list R)) : Star.t :=
  Star.mk (star_data props) (StarFit.mk params 1 (0, 0) None None None None).

Definition star_n : Star.t := star_with cached (Some [1; 0; 0]).
Definition star_u : Star.t := star_with cached (Some [1; 0; 3 / 5]).
Definition star_unset : Star.t := star_with cached None.

End Example.

(** ** Further abbreviations used in the statements *)

(** The pixels [draw] renders for the profile [prof0]. *)
Definition model_pixels (E : Ext) (self : GSObjectModel) (star : Star.t) (prof0 : GSObject)
    : list R :=
  Image.array (drawImage E (drawn_profile star prof0) (Star.image star) (_method self)
                 (draw_offset star)).

(** [sum(w * d * m) / sum(w * m**2)] and [sum(w * (d - m)**2)] *)
Definition flux_ratio_of (w d m : list R) : R :=
  np.sum (np.mul (np.mul w d) m) / np.sum (np.mul w (np.square m)).

Definition chisq_of (w d m : list R) : R :=
  np.sum (np.mul w (np.square (np.sub d m))).

(** A log without a call of the minimizer. *)
Definition is_minimize (c : Call) : bool :=
  match c with
  | CallMinimize _ _ => true
  | _ => false
  end.

Definition no_minimize (log : list Call) : Prop :=
  Forall (fun c => is_minimize c = false) log.

(** The data of a star after its moments were measured: the same stamp, with
    the entry ["hsm"] of the properties set. *)
Definition same_stamp (sd sd' : StarData.t) : Prop :=
  StarData.image sd' = StarData.image sd /\
  StarData.image_pos sd' = StarData.image_pos sd /\
  StarData.weight sd' = StarData.weight sd /\
  StarData.pointing sd' = StarData.pointing sd /\
  StarData.field_pos sd' = StarData.field_pos sd /\
  StarData.orig_weight sd' = StarData.orig_weight sd /\
  exists v, StarData.properties sd' = <["hsm" := v]> (StarData.properties sd).

(** The six entries of a parameter set, as [_lmfit_params] orders them. *)
Definition param_set (unnormalized : bool) (flux du dv size s1 s2 : R)
    (vary_params vary_flux vary_center : bool) : lmfit.ParamSet :=
  [ lmfit.mkParam "flux" flux vary_flux (Some 0) None;
    lmfit.mkParam "du" du vary_center None None;
    lmfit.mkParam "dv" dv vary_center None None;
    lmfit.mkParam (if unnormalized then "e0" else "scale") size vary_params (Some 0) None;
    lmfit.mkParam (if unnormalized then "e1" else "g1") s1 vary_params
      (Some (- (if unnormalized then 5 else 7 / 10)))
      (Some (if unnormalized then 5 else 7 / 10));
    lmfit.mkParam (if unnormalized then "e2" else "g2") s2 vary_params
      (Some (- (if unnormalized then 5 else 7 / 10)))
      (Some (if unnormalized then 5 else 7 / 10)) ].

(** The profile the residual evaluator renders. *)
Definition resid_profile (self : GSObjectModel) (flux du dv scale : R) (shear : Shear.t)
    : GSObject :=
  ScaleFlux (Shift (ShearBy (Dilate (gsobj self) scale) shear) du dv) flux.

(** The profile of [Example.star_n] in [Example.model_n]. *)
Definition example_profile : GSObject :=
  Shift (ShearBy (Dilate (gsobj Example.model_n) 1) (Shear.mk (0, 0))) 0 0.

(** A moment estimator that fails and reports a shear beyond 1. *)
Definition example_ext_beyond : Ext :=
  mkExt (fun _ => (1, 0, 0, 1, 2, 0, 1%Z))
        (drawImage (Example.ext 0)) (minimize (Example.ext 0))
        (centroid (Example.ext 0)) (default_properties (Example.ext 0)).

(** [Example.star_n] with its moments measured anew. *)
Definition example_measured : Star.t :=
  Star.mk (StarData.set_property (Star.data Example.star_n) "hsm"
             (PTuple [1; 0; 0; 1; 0; 0]))
          (Star.fit Example.star_n).

(** The example stamp with its second pixel masked. *)
Definition example_masked : Star.t :=
  Star.mk (StarData.mk Example.stamp (0, 0) (Image.mk [1; 0] (0, 0)) None None
             Example.ones Example.cached)
          (Star.fit Example.star_n).

(** * Properties *)

Lemma rbind_ok {A B} (a : A) (f : A -> Result B) : rbind (ok a) f = f a.
Proof. reflexivity. Qed.

Lemma rbind_raise {A B} (e : Exc) (f : A -> Result B) : rbind (raise e) f = raise e.
Proof. reflexivity. Qed.

(** ** The monad of logged calls *)

Lemma mbind_mret {A B} (a : A) (f : A -> M B) : mbind (mret a) f = f a.
Proof. unfold mbind, mret, ok. destruct (f a). reflexivity. Qed.

Lemma mbind_lift_ok {A B} (a : A) (f : A -> M B) : mbind (lift (ok a)) f = f a.
Proof. apply mbind_mret. Qed.

Lemma mbind_lift_raise {A B} (e : Exc) (f : A -> M B) :
  mbind (lift (raise e)) f = (raise e, []).
Proof. reflexivity. Qed.

Lemma mbind_mraise {A B} (e : Exc) (f : A -> M B) : mbind (mraise e) f = (raise e, []).
Proof. reflexivity. Qed.

Lemma mbind_raise_log {A B} (e : Exc) (log : list Call) (f : A -> M B) :
  mbind (raise e, log) f = (raise e, log).
Proof. reflexivity. Qed.

Lemma mbind_ok_log {A B} (a : A) (log : list Call) (f : A -> M B) :
  mbind (ok a, log) f = (fst (f a), log ++ snd (f a)).
Proof. unfold mbind, ok. destruct (f a). reflexivity. Qed.

(** ** [hasattr] on the properties dictionary *)

Lemma hasattr_dict_hsm {V} (d : gmap string V) : hasattr_dict d "hsm" = false.
Proof. reflexivity. Qed.

(** [with_hsm] measures whatever the properties hold. *)
Lemma with_hsm_measures (E : Ext) (star : Star.t) :
  with_hsm E star =
  let '(flux, cenu, cenv, size, g1, g2, flag) := hsm E star in
  if (flag =? 0)%Z
  then (ok (Star.mk (StarData.set_property (Star.data star) "hsm"
                       (PTuple [flux; cenu; cenv; size; g1; g2]))
                    (Star.fit star)),
        [CallHsm star])
  else (raise (RuntimeError "Error initializing star fit values using hsm."),
        [CallHsm star]).
Proof.
  unfold with_hsm. rewrite hasattr_dict_hsm. cbn [negb].
  unfold call_hsm. rewrite mbind_ok_log.
  destruct (hsm E star) as [[[[[[flux cenu] cenv] size] g1] g2] flag].
  destruct (flag =? 0)%Z; reflexivity.
Qed.

Lemma with_hsm_fit (E : Ext) (star star' : Star.t) (log : list Call) :
  with_hsm E star = (ok star', log) -> Star.fit star' = Star.fit star.
Proof.
  rewrite with_hsm_measures.
  destruct (hsm E star) as [[[[[[flux cenu] cenv] size] g1] g2] flag].
  destruct (flag =? 0)%Z; intros H; inversion H; reflexivity.
Qed.

(** ** The recursion of [fit] and [initialize] *)

Lemma fit_body_ext (I I' : Star.t -> M Star.t) E self star fastfit :
  I star = I' star -> fit_body I E self star fastfit = fit_body I' E self star fastfit.
Proof. intros H. unfold fit_body. rewrite hasattr_dict_hsm. cbn [negb]. rewrite H. reflexivity. Qed.

(** A star whose parameters are set is initialized without a call to [fit]. *)
Lemma initialize_body_set (F F' : Star.t -> option bool -> M Star.t) E self star p :
  StarFit.params (Star.fit star) = Some p ->
  initialize_body F E self star = initialize_body F' E self star.
Proof.
  intros Hp. unfold initialize_body.
  destruct (with_hsm E star) as [[e|star'] log] eqn:Hw; [reflexivity|].
  apply with_hsm_fit in Hw. rewrite !mbind_ok_log. rewrite Hw, Hp. reflexivity.
Qed.

Lemma fit_rec_set (d d' : nat) E self star fastfit p :
  StarFit.params (Star.fit star) = Some p ->
  fit_rec (S d) E self star fastfit = fit_rec (S d') E self star fastfit.
Proof.
  intros Hp. cbn [fit_rec]. apply fit_body_ext. eapply initialize_body_set; eassumption.
Qed.

Lemma initialize_body_stable (d d' : nat) E self star :
  initialize_body (fit_rec (S d) E self) E self star
  = initialize_body (fit_rec (S d') E self) E self star.
Proof.
  unfold initialize_body.
  destruct (with_hsm E star) as [[e|star'] log]; [reflexivity|].
  rewrite !mbind_ok_log.
  destruct (StarFit.params (Star.fit star')) as [p|]; [reflexivity|].
  erewrite (fit_rec_set d d'); [reflexivity|]. reflexivity.
Qed.

(** Two levels of recursion are all that is ever used: deeper stacks change
    nothing, and in particular [RecursionError] does not come from here. *)
Lemma fit_rec_stable (d d' : nat) E self star fastfit :
  fit_rec (S (S d)) E self star fastfit = fit_rec (S (S d')) E self star fastfit.
Proof.
  cbn [fit_rec]. apply fit_body_ext.
  apply (initialize_body_stable d d').
Qed.

(** The two methods satisfy the equations of the source. *)
Lemma fit_unfold E self star fastfit :
  fit E self star fastfit = fit_body (initialize E self) E self star fastfit.
Proof.
  unfold fit, initialize, recursion_limit.
  change 1000%nat with (S (S 998)) at 1. cbn [fit_rec]. apply fit_body_ext.
  change 1000%nat with (S 999). apply (initialize_body_stable 998 999).
Qed.

Lemma initialize_unfold E self star :
  initialize E self star = initialize_body (fit E self) E self star.
Proof. reflexivity. Qed.

Section BasisRoundTrip.

Variables scale g1 g2 : R.
Hypothesis scale_pos : 0 < scale.
Hypothesis g_lt_1 : g1 ^ 2 + g2 ^ 2 < 1.

Local Abbreviation G := (g1 ^ 2 + g2 ^ 2).
Local Abbreviation E0 := (unnormalized_e0 scale g1 g2).

Lemma G_range : 0 <= G < 1.
Proof. split; [nra | exact g_lt_1]. Qed.

Lemma of_g_valid : Shear.of_g g1 g2 = ok (Shear.mk (g1, g2)).
Proof.
  unfold Shear.of_g. destruct (Rlt_dec _ _) as [H|H]; [|reflexivity].
  exfalso. pose proof G_range as [H0 H1].
  assert (Hs : sqrt (g1 * g1 + g2 * g2) < sqrt 1).
  { apply sqrt_lt_1; nra. }
  rewrite sqrt_1 in Hs. lra.
Qed.

(** The distortion of a valid shear leaves [((1-G)/(1+G))^2] under the root. *)
Lemma one_minus_distortion :
  1 - (g1 * Shear._g2e G) ^ 2 - (g2 * Shear._g2e G) ^ 2 = ((1 - G) / (1 + G)) ^ 2.
Proof.
  pose proof G_range. unfold Shear._g2e.
  replace ((g1 * (2 / (1 + G))) ^ 2) with (4 * g1 ^ 2 / (1 + G) ^ 2) by (field; lra).
  replace ((g2 * (2 / (1 + G))) ^ 2) with (4 * g2 ^ 2 / (1 + G) ^ 2) by (field; lra).
  replace (4 * g1 ^ 2 / (1 + G) ^ 2 ) with (4 * (G - g2 ^ 2) / (1 + G) ^ 2)
    by (field; lra).
  field. lra.
Qed.

Lemma E0_pos : 0 < E0.
Proof.
  pose proof G_range. unfold unnormalized_e0.
  apply Rdiv_lt_0_compat; [|lra].
  apply Rmult_lt_0_compat; [|lra]. nra.
Qed.

Lemma to_unnormalized_value :
  convert_to_unnormalized_basis scale g1 g2
  = ok (E0, g1 * Shear._g2e G * E0, g2 * Shear._g2e G * E0).
Proof.
  pose proof G_range. pose proof E0_pos.
  unfold convert_to_unnormalized_basis. rewrite of_g_valid, rbind_ok.
  unfold Shear.e1, Shear.e2, Shear.absgsq, Shear.g1, Shear.g2. cbn [Shear._g fst snd].
  rewrite one_minus_distortion.
  replace (4 * scale ^ 4 / ((1 - G) / (1 + G)) ^ 2) with (E0 * E0)
    by (unfold unnormalized_e0; field; lra).
  rewrite sqrt_square by lra. reflexivity.
Qed.

Lemma from_unnormalized_value :
  convert_from_unnormalized_basis E0 (g1 * Shear._g2e G * E0) (g2 * Shear._g2e G * E0)
  = ok (scale, g1, g2).
Proof.
  pose proof G_range as HG. pose proof E0_pos as HE.
  pose proof one_minus_distortion as Hd.
  unfold convert_from_unnormalized_basis.
  replace (g1 * Shear._g2e G * E0 / E0) with (g1 * Shear._g2e G) by (field; lra).
  replace (g2 * Shear._g2e G * E0 / E0) with (g2 * Shear._g2e G) by (field; lra).
  set (a := g1 * Shear._g2e G) in *. set (b := g2 * Shear._g2e G) in *.
  assert (Hq : 0 < (1 - G) / (1 + G)) by (apply Rdiv_lt_0_compat; lra).
  assert (Hab : 1 - (a ^ 2 + b ^ 2) = ((1 - G) / (1 + G)) * ((1 - G) / (1 + G))) by lra.
  unfold Shear.of_e. cbv zeta.
  destruct (Rlt_dec 1 (a ^ 2 + b ^ 2)) as [Hbad|_]; [exfalso; nra|].
  rewrite rbind_ok. unfold Shear.g1, Shear.g2, Shear._e2g. cbn [Shear._g fst snd].
  rewrite Hab. rewrite sqrt_square by lra.
  replace (E0 ^ 2 - (a * E0) ^ 2 - (b * E0) ^ 2)
    with ((2 * scale ^ 2) * (2 * scale ^ 2)).
  2:{ transitivity (E0 ^ 2 * (1 - (a ^ 2 + b ^ 2))); [|ring].
      rewrite Hab. unfold unnormalized_e0. field. lra. }
  rewrite sqrt_square by nra.
  replace (2 * scale ^ 2 * (1 / 2)) with (scale * scale) by field.
  rewrite sqrt_square by lra.
  unfold ok. f_equal. f_equal; [f_equal|].
  - unfold a, Shear._g2e. field. lra.
  - unfold b, Shear._g2e. field. lra.
Qed.

End BasisRoundTrip.

(** C2.  On the valid domain (scale > 0 and g1^2 + g2^2 < 1) converting to the
    unnormalized basis and back reproduces (scale, g1, g2): both conversions
    succeed and the second inverts the first (exactly, over the reals). *)
Theorem basis_round_trip (scale g1 g2 : R) :
  0 < scale -> g1 ^ 2 + g2 ^ 2 < 1 ->
  exists e0 e1 e2,
    convert_to_unnormalized_basis scale g1 g2 = ok (e0, e1, e2) /\
    convert_from_unnormalized_basis e0 e1 e2 = ok (scale, g1, g2).
Proof.
  intros Hs Hg. eexists _, _, _. split.
  - apply to_unnormalized_value; assumption.
  - apply from_unnormalized_value; assumption.
Qed.

Lemma basis_round_trip_witness :
  0 < 2 /\ 0 ^ 2 + (1 / 2) ^ 2 < 1 /\
  exists e0 e1 e2,
    convert_to_unnormalized_basis 2 0 (1 / 2) = ok (e0, e1, e2) /\
    convert_from_unnormalized_basis e0 e1 e2 = ok (2, 0, 1 / 2).
Proof.
  split; [lra|]. split; [lra|]. apply (basis_round_trip 2 0 (1 / 2)); lra.
Defined.

(** ** Rendering: [draw] *)

Lemma mbind_ok_inv {A B} (m : M A) (f : A -> M B) (b : B) (log : list Call) :
  mbind m f = (ok b, log) ->
  exists a l1 l2, m = (ok a, l1) /\ f a = (ok b, l2) /\ log = l1 ++ l2.
Proof.
  unfold mbind, ok. destruct m as [[e|a] l1]; [discriminate|].
  destruct (f a) as [r l2] eqn:Hf. intros H. inversion H; subst.
  exists a, l1, l2. auto.
Qed.

Lemma draw_eq E self star :
  draw E self star =
  match getProfile self (StarFit.params (Star.fit star)) with
  | inl e => (raise e, [])
  | inr prof0 =>
      let prof := drawn_profile star prof0 in
      let image := drawImage E prof (Star.image star) (_method self) (draw_offset star) in
      (ok (Star.mk (StarData.new (default_properties E) image (Star.image_pos star)
                      (Star.weight star) (StarData.pointing (Star.data star)))
                   (Star.fit star)),
       [CallDrawImage prof (Star.image star) (_method self) (draw_offset star)])
  end.
Proof.
  unfold draw. destruct (getProfile self _) as [e|prof0]; [reflexivity|].
  change (inr prof0) with (ok prof0). rewrite mbind_lift_ok.
  unfold call_drawImage. rewrite mbind_ok_log. reflexivity.
Qed.

Lemma draw_ok E self star prof0 :
  getProfile self (StarFit.params (Star.fit star)) = ok prof0 ->
  draw E self star =
  (ok (drawn_star E self star prof0),
   [CallDrawImage (drawn_profile star prof0) (Star.image star) (_method self)
      (draw_offset star)]).
Proof. intros H. rewrite draw_eq, H. reflexivity. Qed.

(** C9.  When the profile of the star's fit exists, [draw] renders it once
    and returns a Star with the input's StarFit itself and a fresh StarData
    built from the rendered image, the input's image position, weight and
    pointing alone: its properties are the constructor's own, the input's
    properties map (cached moments included) is not passed on. *)
Theorem draw_keeps_fit_drops_properties E self star prof0 :
  getProfile self (StarFit.params (Star.fit star)) = ok prof0 ->
  exists image,
    image = drawImage E (drawn_profile star prof0) (Star.image star) (_method self)
              (draw_offset star) /\
    draw E self star =
      (ok (Star.mk (StarData.new (default_properties E) image
                      (StarData.image_pos (Star.data star))
                      (StarData.weight (Star.data star))
                      (StarData.pointing (Star.data star)))
                   (Star.fit star)),
       [CallDrawImage (drawn_profile star prof0) (Star.image star) (_method self)
          (draw_offset star)]) /\
    forall props,
      draw E self
        (Star.mk (StarData.mk (StarData.image (Star.data star))
                    (StarData.image_pos (Star.data star))
                    (StarData.weight (Star.data star))
                    (StarData.pointing (Star.data star))
                    (StarData.field_pos (Star.data star))
                    (StarData.orig_weight (Star.data star))
                    props)
                 (Star.fit star))
      = draw E self star.
Proof.
  intros Hp. eexists. split; [reflexivity|]. split.
  - rewrite draw_eq, Hp. reflexivity.
  - intros props. rewrite !draw_eq. cbn [Star.fit]. rewrite Hp. reflexivity.
Qed.

Lemma getProfile_example_n :
  getProfile Example.model_n (StarFit.params (Star.fit Example.star_n))
  = ok (Shift (ShearBy (Dilate (gsobj Example.model_n) 1) (Shear.mk (0, 0))) 0 0).
Proof.
  unfold getProfile.
  cbn [Example.model_n GSObjectModel_init _force_model_center _unnormalized_basis
       Example.star_n Example.star_with Star.fit StarFit.params iter_array].
  rewrite rbind_ok. cbn [unpack3]. rewrite !rbind_ok.
  unfold gs_shear. rewrite of_g_valid by lra. rewrite !rbind_ok. reflexivity.
Qed.

Lemma draw_keeps_fit_drops_properties_witness :
  exists prof0,
    getProfile Example.model_n (StarFit.params (Star.fit Example.star_n)) = ok prof0 /\
    exists image,
      image = drawImage (Example.ext 0) (drawn_profile Example.star_n prof0)
                (Star.image Example.star_n) (_method Example.model_n)
                (draw_offset Example.star_n) /\
      draw (Example.ext 0) Example.model_n Example.star_n =
        (ok (Star.mk (StarData.new (default_properties (Example.ext 0)) image
                        (StarData.image_pos (Star.data Example.star_n))
                        (StarData.weight (Star.data Example.star_n))
                        (StarData.pointing (Star.data Example.star_n)))
                     (Star.fit Example.star_n)),
         [CallDrawImage (drawn_profile Example.star_n prof0) (Star.image Example.star_n)
            (_method Example.model_n) (draw_offset Example.star_n)]) /\
      forall props,
        draw (Example.ext 0) Example.model_n
          (Star.mk (StarData.mk (StarData.image (Star.data Example.star_n))
                      (StarData.image_pos (Star.data Example.star_n))
                      (StarData.weight (Star.data Example.star_n))
                      (StarData.pointing (Star.data Example.star_n))
                      (StarData.field_pos (Star.data Example.star_n))
                      (StarData.orig_weight (Star.data Example.star_n))
                      props)
                   (Star.fit Example.star_n))
        = draw (Example.ext 0) Example.model_n Example.star_n.
Proof.
  eexists. split; [exact getProfile_example_n|].
  apply (draw_keeps_fit_drops_properties (Example.ext 0) Example.model_n Example.star_n _
           getProfile_example_n).
Defined.

(** ** Reflux *)

(** C3.  In flux-only mode ([fit_center] false or [force_model_center]
    false) [reflux] renders the current model once and calls nothing else,
    the minimizer in particular; with [fluxRatio = sum(w d m) / sum(w m^2)]
    it returns the star's data with flux times [fluxRatio],
    [chisq = sum(w (d - fluxRatio m)^2)] and [dof] one less than the number of
    nonzero weights.  When the current parameters give no profile, the error
    is returned and nothing is rendered. *)
Theorem reflux_flux_only E self star fit_center :
  fit_center && _force_model_center self = false ->
  reflux E self star fit_center =
  match getProfile self (StarFit.params (Star.fit star)) with
  | inl e => (raise e, [])
  | inr prof0 =>
      let prof := drawn_profile star prof0 in
      let w := Image.array (Star.weight star) in
      let d := Image.array (Star.image star) in
      let m := Image.array
                 (drawImage E prof (Star.image star) (_method self) (draw_offset star)) in
      let fluxRatio := np.sum (np.mul (np.mul w d) m) / np.sum (np.mul w (np.square m)) in
      (ok (Star.mk (Star.data star)
             (StarFit.mk (StarFit.params (Star.fit star))
                (StarFit.flux (Star.fit star) * fluxRatio)
                (StarFit.center (Star.fit star))
                (StarFit.alpha (Star.fit star))
                (StarFit.beta (Star.fit star))
                (Some (np.sum (np.mul w (np.square (np.sub d (np.smul fluxRatio m))))))
                (Some (np.count_nonzero w - 1)%Z))),
       [CallDrawImage prof (Star.image star) (_method self) (draw_offset star)])
  end.
Proof.
  intros Hmode. unfold reflux. rewrite Hmode. cbn [StarData.getImage].
  rewrite draw_eq. destruct (getProfile self _) as [e|prof0]; [reflexivity|].
  cbv zeta. rewrite mbind_ok_log. cbn [fst snd mret]. rewrite app_nil_r. reflexivity.
Qed.

Lemma reflux_flux_only_witness :
  false && _force_model_center Example.model_n = false /\
  reflux (Example.ext 0) Example.model_n Example.star_n false =
  match getProfile Example.model_n (StarFit.params (Star.fit Example.star_n)) with
  | inl e => (raise e, [])
  | inr prof0 =>
      let prof := drawn_profile Example.star_n prof0 in
      let w := Image.array (Star.weight Example.star_n) in
      let d := Image.array (Star.image Example.star_n) in
      let m := Image.array
                 (drawImage (Example.ext 0) prof (Star.image Example.star_n)
                    (_method Example.model_n) (draw_offset Example.star_n)) in
      let fluxRatio := np.sum (np.mul (np.mul w d) m) / np.sum (np.mul w (np.square m)) in
      (ok (Star.mk (Star.data Example.star_n)
             (StarFit.mk (StarFit.params (Star.fit Example.star_n))
                (StarFit.flux (Star.fit Example.star_n) * fluxRatio)
                (StarFit.center (Star.fit Example.star_n))
                (StarFit.alpha (Star.fit Example.star_n))
                (StarFit.beta (Star.fit Example.star_n))
                (Some (np.sum (np.mul w (np.square (np.sub d (np.smul fluxRatio m))))))
                (Some (np.count_nonzero w - 1)%Z))),
       [CallDrawImage prof (Star.image Example.star_n) (_method Example.model_n)
          (draw_offset Example.star_n)])
  end.
Proof.
  split; [reflexivity|].
  apply (reflux_flux_only (Example.ext 0) Example.model_n Example.star_n false).
  reflexivity.
Defined.

Ltac minv H :=
  apply mbind_ok_inv in H;
  let a := fresh "a" in let l1 := fresh "l" in let l2 := fresh "l" in
  let H1 := fresh "H" in let Hl := fresh "Hl" in
  destruct H as (a & l1 & l2 & H1 & H & Hl).

(** C8.  In both modes a Star returned by [reflux] has the input's data and
    a StarFit with the input's parameter vector, alpha and beta: only flux,
    center, chisq and dof are computed anew. *)
Theorem reflux_frame E self star fit_center star' log :
  reflux E self star fit_center = (ok star', log) ->
  Star.data star' = Star.data star /\
  StarFit.params (Star.fit star') = StarFit.params (Star.fit star) /\
  StarFit.alpha (Star.fit star') = StarFit.alpha (Star.fit star) /\
  StarFit.beta (Star.fit star') = StarFit.beta (Star.fit star).
Proof.
  unfold reflux. destruct (fit_center && _force_model_center self).
  - intros H. do 5 minv H. inversion H; subst. cbn. auto.
  - cbn [StarData.getImage]. cbv zeta. intros H. minv H.
    inversion H; subst. cbn. auto.
Qed.

Lemma reflux_frame_witness :
  exists star' log,
    reflux (Example.ext 0) Example.model_n Example.star_n true = (ok star', log) /\
    Star.data star' = Star.data Example.star_n /\
    StarFit.params (Star.fit star') = StarFit.params (Star.fit Example.star_n) /\
    StarFit.alpha (Star.fit star') = StarFit.alpha (Star.fit Example.star_n) /\
    StarFit.beta (Star.fit star') = StarFit.beta (Star.fit Example.star_n).
Proof.
  eexists _, _. split; [reflexivity|].
  eapply (reflux_frame (Example.ext 0) Example.model_n Example.star_n true).
  reflexivity.
Defined.

(** The flux and center mode: one call of the minimizer, whose flux, du and
    dv are taken over with its chi-square, whether it reports success or
    not. *)
Lemma reflux_center E self star ps res pflux pdu pdv :
  _force_model_center self = true ->
  _lmfit_params E self star false true true = (ok ps, []) ->
  minimize E (fun lmparams => _lmfit_resid E self lmparams star) ps = ok res ->
  lmfit.getitem (lmfit.params res) "flux" = ok pflux ->
  lmfit.getitem (lmfit.params res) "du" = ok pdu ->
  lmfit.getitem (lmfit.params res) "dv" = ok pdv ->
  reflux E self star true =
  (ok (Star.mk (Star.data star)
         (StarFit.mk (StarFit.params (Star.fit star))
            (lmfit.value pflux)
            (lmfit.value pdu, lmfit.value pdv)
            (StarFit.alpha (Star.fit star))
            (StarFit.beta (Star.fit star))
            (Some (lmfit.chisqr res))
            (Some (np.count_nonzero (Image.array (Star.weight star)) - 3)%Z))),
   [CallMinimize ps star]).
Proof.
  intros Hc Hps Hmin Hf Hu Hv. unfold reflux. rewrite Hc. cbn [andb].
  rewrite Hps, mbind_ok_log. cbn [fst snd app].
  unfold _lmfit_minimize, call_minimize. rewrite Hmin, (mbind_ok_log res).
  cbn [fst snd app].
  rewrite Hf, mbind_lift_ok, Hu, mbind_lift_ok, Hv, mbind_lift_ok. reflexivity.
Qed.

Lemma nonzero_1 : np.nonzero 1 = true.
Proof. unfold np.nonzero, Rneqb. destruct (Req_dec_T 1 0); [lra|reflexivity]. Qed.

(** Two pixels of weight 1 with data (2, 4) and a model rendered as (1, 2):
    the flux doubles, the residual vanishes, one degree of freedom is left. *)
Example reflux_flux_only_example :
  fst (reflux (Example.ext 0) Example.model_n Example.star_n false)
  = ok (Star.mk (Star.data Example.star_n)
          (StarFit.mk (Some [1; 0; 0]) 2 (0, 0) None None (Some 0) (Some 1%Z))).
Proof.
  unfold reflux. cbn [andb StarData.getImage]. cbv zeta.
  rewrite (draw_ok _ _ _ _ getProfile_example_n), mbind_ok_log.
  unfold drawn_star. cbn [fst mret].
  cbn [Example.star_n Example.star_with Example.star_data Example.stamp Example.ones
       Example.ext drawImage Star.image Star.weight Star.data Star.fit Star.flux
       StarData.image StarData.weight StarData.new Image.array StarFit.params StarFit.flux
       StarFit.center StarFit.alpha StarFit.beta].
  unfold np.count_nonzero. cbn [List.filter]. rewrite nonzero_1. cbn [length Z.of_nat].
  unfold np.sum, np.mul, np.sub, np.smul, np.square.
  cbn [zip_with map fold_right].
  unfold ok. do 2 f_equal. f_equal; [f_equal; field | do 2 f_equal; field].
Qed.

(** ** Moments: [with_hsm], [initialize], [fit] *)

Lemma with_hsm_bad_flag E star :
  hsm_flag (hsm E star) <> 0%Z ->
  with_hsm E star =
  (raise (RuntimeError "Error initializing star fit values using hsm."), [CallHsm star]).
Proof.
  intros Hflag. rewrite with_hsm_measures.
  destruct (hsm E star) as [[[[[[flux cenu] cenv] size] g1] g2] flag].
  cbn [hsm_flag snd] in Hflag. apply Z.eqb_neq in Hflag. rewrite Hflag. reflexivity.
Qed.

Lemma initialize_body_bad_flag F E self star :
  hsm_flag (hsm E star) <> 0%Z ->
  initialize_body F E self star =
  (raise (RuntimeError "Error initializing star fit values using hsm."), [CallHsm star]).
Proof.
  intros Hflag. unfold initialize_body. rewrite with_hsm_bad_flag by assumption.
  reflexivity.
Qed.

(** [fit] starts with [initialize], whatever the properties hold; when that
    raises, so does [fit]. *)
Lemma fit_initialize_raises E self star fastfit e log :
  initialize E self star = (raise e, log) ->
  fit E self star fastfit = (raise e, log).
Proof.
  intros H. rewrite fit_unfold. unfold fit_body.
  rewrite hasattr_dict_hsm. cbn [negb]. rewrite H. reflexivity.
Qed.

(** C6.  With a moment estimator whose status flag is never zero,
    [initialize] raises the measurement error right after the one
    measurement: no Star comes back, nothing is rendered or fitted. *)
Theorem initialize_measurement_failure E self star :
  (forall s, hsm_flag (hsm E s) <> 0%Z) ->
  initialize E self star =
  (raise (RuntimeError "Error initializing star fit values using hsm."), [CallHsm star]).
Proof.
  intros Hflag. rewrite initialize_unfold. apply initialize_body_bad_flag, Hflag.
Qed.

Lemma initialize_measurement_failure_witness :
  (forall s, hsm_flag (hsm (Example.ext 1) s) <> 0%Z) /\
  initialize (Example.ext 1) Example.model_n Example.star_unset =
  (raise (RuntimeError "Error initializing star fit values using hsm."),
   [CallHsm Example.star_unset]).
Proof.
  assert (H : forall s, hsm_flag (hsm (Example.ext 1) s) <> 0%Z)
    by (intros s; cbn; discriminate).
  split; [exact H|].
  apply (initialize_measurement_failure (Example.ext 1) Example.model_n
           Example.star_unset H).
Defined.

(** C5 (the code departs from it).  [Example.star_n] carries cached moments
    under ["hsm"] and set parameters.  Still [with_hsm] measures it again,
    [fit] goes through [initialize] first, and with an estimator that fails
    all three raise where the cached moments would have served. *)
Theorem cached_moments_are_measured_again :
  StarData.properties (Star.data Example.star_n) !! "hsm"
    = Some (PTuple [1; 0; 0; 1; 0; 0]) /\
  with_hsm (Example.ext 1) Example.star_n =
    (raise (RuntimeError "Error initializing star fit values using hsm."),
     [CallHsm Example.star_n]) /\
  initialize (Example.ext 1) Example.model_n Example.star_n =
    (raise (RuntimeError "Error initializing star fit values using hsm."),
     [CallHsm Example.star_n]) /\
  fit (Example.ext 1) Example.model_n Example.star_n (Some true) =
    (raise (RuntimeError "Error initializing star fit values using hsm."),
     [CallHsm Example.star_n]).
Proof.
  assert (Hflag : hsm_flag (hsm (Example.ext 1) Example.star_n) <> 0%Z)
    by (cbn; discriminate).
  assert (Hinit : initialize (Example.ext 1) Example.model_n Example.star_n =
    (raise (RuntimeError "Error initializing star fit values using hsm."),
     [CallHsm Example.star_n])).
  { rewrite initialize_unfold. apply initialize_body_bad_flag, Hflag. }
  split; [reflexivity|]. split; [apply with_hsm_bad_flag, Hflag|].
  split; [exact Hinit|]. apply fit_initialize_raises, Hinit.
Qed.

(** ** The parameter set of the nonlinear fit: [_lmfit_params] *)

(** The set built from the values [flux, du, dv, scale, g1, g2]. *)
Lemma lmfit_params_set E self star vp vf vc du dv scale g1 g2 :
  decode_layout self (Star.fit star) = Some (du, dv, scale, g1, g2) ->
  _lmfit_params E self star vp vf vc =
  (ok [ lmfit.mkParam "flux" (StarFit.flux (Star.fit star)) vf (Some 0) None;
        lmfit.mkParam "du" du vc None None;
        lmfit.mkParam "dv" dv vc None None;
        lmfit.mkParam (if _unnormalized_basis self then "e0" else "scale") scale vp
          (Some 0) None;
        lmfit.mkParam (if _unnormalized_basis self then "e1" else "g1") g1 vp
          (Some (- (if _unnormalized_basis self then 5 else 7 / 10)))
          (Some (if _unnormalized_basis self then 5 else 7 / 10));
        lmfit.mkParam (if _unnormalized_basis self then "e2" else "g2") g2 vp
          (Some (- (if _unnormalized_basis self then 5 else 7 / 10)))
          (Some (if _unnormalized_basis self then 5 else 7 / 10)) ],
   []).
Proof.
  unfold decode_layout, _lmfit_params, index_bool.
  destruct (StarFit.params (Star.fit star)) as [p|]; [|discriminate].
  destruct (StarFit.center (Star.fit star)) as [cu cv].
  destruct (_force_model_center self);
    repeat (destruct p as [|? p]; try discriminate);
    intros H; inversion H; subst; reflexivity.
Qed.

(** Without stored parameters no set is built: [moment_fit] hands back six
    values where seven names are bound (and raises before that, see
    [moment_fit_unset]). *)
Lemma lmfit_params_unset E self star vp vf vc :
  StarFit.params (Star.fit star) = None ->
  exists e log, _lmfit_params E self star vp vf vc = (raise e, log).
Proof.
  intros Hp. unfold _lmfit_params. rewrite Hp.
  destruct (moment_fit E self star) as [[e|[[[[[flux du] dv] scale] g1] g2]] log].
  - exists e, log. reflexivity.
  - exists ValueError, log. rewrite mbind_ok_log. cbn. rewrite app_nil_r. reflexivity.
Qed.

Lemma lmfit_params_inv E self star vp vf vc ps log :
  _lmfit_params E self star vp vf vc = (ok ps, log) ->
  exists du dv scale g1 g2,
    decode_layout self (Star.fit star) = Some (du, dv, scale, g1, g2).
Proof.
  intros H.
  destruct (StarFit.params (Star.fit star)) as [p|] eqn:Hp.
  - unfold decode_layout. rewrite Hp. revert H. unfold _lmfit_params. rewrite Hp.
    destruct (StarFit.center (Star.fit star)) as [cu cv].
    destruct (_force_model_center self);
      repeat (destruct p as [|? p]; try (cbn; discriminate));
      intros _; eauto 6.
  - destruct (lmfit_params_unset E self star vp vf vc Hp) as (e & l & He).
    rewrite He in H. discriminate.
Qed.

(** C7.  Any parameter set [_lmfit_params] returns lists flux, du, dv, the
    size and the two shape components in this order; flux has lower bound 0,
    du and dv have no bounds, and the shape components are bounded by
    -0.7 and 0.7 (named g1, g2) in the normalized basis, by -5 and 5 (named
    e1, e2) in the unnormalized basis. *)
Theorem lmfit_params_bounds E self star vp vf vc ps log :
  _lmfit_params E self star vp vf vc = (ok ps, log) ->
  exists pflux pdu pdv psize ps1 ps2,
    ps = [pflux; pdu; pdv; psize; ps1; ps2] /\
    (lmfit.name pflux = "flux" /\ lmfit.min pflux = Some 0) /\
    (lmfit.name pdu = "du" /\ lmfit.min pdu = None /\ lmfit.max pdu = None) /\
    (lmfit.name pdv = "dv" /\ lmfit.min pdv = None /\ lmfit.max pdv = None) /\
    (_unnormalized_basis self = false ->
       lmfit.name ps1 = "g1" /\ lmfit.name ps2 = "g2" /\
       lmfit.min ps1 = Some (- (7 / 10)) /\ lmfit.max ps1 = Some (7 / 10) /\
       lmfit.min ps2 = Some (- (7 / 10)) /\ lmfit.max ps2 = Some (7 / 10)) /\
    (_unnormalized_basis self = true ->
       lmfit.name ps1 = "e1" /\ lmfit.name ps2 = "e2" /\
       lmfit.min ps1 = Some (- 5) /\ lmfit.max ps1 = Some 5 /\
       lmfit.min ps2 = Some (- 5) /\ lmfit.max ps2 = Some 5).
Proof.
  intros H. destruct (lmfit_params_inv _ _ _ _ _ _ _ _ H) as (du & dv & scale & g1 & g2 & Hl).
  rewrite (lmfit_params_set E self star vp vf vc _ _ _ _ _ Hl) in H.
  inversion H; subst. eexists _, _, _, _, _, _. split; [reflexivity|].
  cbn [lmfit.name lmfit.min lmfit.max].
  repeat split; try reflexivity;
    match goal with
    | Hub : _unnormalized_basis self = _ |- _ => rewrite Hub; reflexivity
    end.
Qed.

Lemma lmfit_params_bounds_witness :
  exists ps log,
    _lmfit_params (Example.ext 0) Example.model_u Example.star_u true true true
      = (ok ps, log) /\
    exists pflux pdu pdv psize ps1 ps2,
      ps = [pflux; pdu; pdv; psize; ps1; ps2] /\
      (lmfit.name pflux = "flux" /\ lmfit.min pflux = Some 0) /\
      (lmfit.name pdu = "du" /\ lmfit.min pdu = None /\ lmfit.max pdu = None) /\
      (lmfit.name pdv = "dv" /\ lmfit.min pdv = None /\ lmfit.max pdv = None) /\
      (_unnormalized_basis Example.model_u = false ->
         lmfit.name ps1 = "g1" /\ lmfit.name ps2 = "g2" /\
         lmfit.min ps1 = Some (- (7 / 10)) /\ lmfit.max ps1 = Some (7 / 10) /\
         lmfit.min ps2 = Some (- (7 / 10)) /\ lmfit.max ps2 = Some (7 / 10)) /\
      (_unnormalized_basis Example.model_u = true ->
         lmfit.name ps1 = "e1" /\ lmfit.name ps2 = "e2" /\
         lmfit.min ps1 = Some (- 5) /\ lmfit.max ps1 = Some 5 /\
         lmfit.min ps2 = Some (- 5) /\ lmfit.max ps2 = Some 5).
Proof.
  eexists _, _. split; [reflexivity|].
  eapply (lmfit_params_bounds (Example.ext 0) Example.model_u Example.star_u true true true).
  reflexivity.
Defined.

(** C10.  In any parameter set [_lmfit_params] returns, whatever the vary
    flags, the fourth entry is the size (named scale in the normalized basis,
    e0 in the unnormalized one) and its lower bound is 0; so every candidate
    set within the bounds, which is what the residual evaluator unpacks, has a
    size that is not negative. *)
Theorem lmfit_params_size_bound E self star vp vf vc ps log :
  _lmfit_params E self star vp vf vc = (ok ps, log) ->
  exists psize,
    ps !! 3%nat = Some psize /\
    lmfit.name psize = (if _unnormalized_basis self then "e0" else "scale") /\
    lmfit.min psize = Some 0 /\
    forall q, respects_bounds ps q ->
      exists flux du dv size s1 s2,
        unpack6 (lmfit.values q) = ok (flux, du, dv, size, s1, s2) /\ 0 <= size.
Proof.
  intros H. destruct (lmfit_params_inv _ _ _ _ _ _ _ _ H) as (du & dv & scale & g1 & g2 & Hl).
  rewrite (lmfit_params_set E self star vp vf vc _ _ _ _ _ Hl) in H.
  inversion H; subst. eexists. split; [reflexivity|]. cbn [lmfit.name lmfit.min].
  split; [reflexivity|]. split; [reflexivity|].
  intros q Hq. unfold respects_bounds in Hq.
  repeat match goal with
         | Hq : Forall2 _ (_ :: _) _ |- _ => inversion Hq; subst; clear Hq
         | Hq : Forall2 _ [] _ |- _ => inversion Hq; subst; clear Hq
         end.
  cbn [lmfit.values map unpack6]. eexists _, _, _, _, _, _. split; [reflexivity|].
  match goal with
  | Hb : _ /\ in_bounds (lmfit.mkParam _ _ _ (Some 0) None) _ |- _ =>
      destruct Hb as [_ [Hlo _]]; exact Hlo
  end.
Qed.

Lemma lmfit_params_size_bound_witness :
  exists ps log,
    _lmfit_params (Example.ext 0) Example.model_n Example.star_n false true true
      = (ok ps, log) /\
    exists psize,
      ps !! 3%nat = Some psize /\
      lmfit.name psize = (if _unnormalized_basis Example.model_n then "e0" else "scale") /\
      lmfit.min psize = Some 0 /\
      forall q, respects_bounds ps q ->
        exists flux du dv size s1 s2,
          unpack6 (lmfit.values q) = ok (flux, du, dv, size, s1, s2) /\ 0 <= size.
Proof.
  eexists _, _. split; [reflexivity|].
  eapply (lmfit_params_size_bound (Example.ext 0) Example.model_n Example.star_n
            false true true).
  reflexivity.
Defined.

(** ** Fitting a star whose parameters are unset *)

Lemma getProfile_unset self : getProfile self None = raise TypeError.
Proof. unfold getProfile. destruct (_force_model_center self); reflexivity. Qed.

Lemma draw_unset E self star :
  StarFit.params (Star.fit star) = None -> draw E self star = (raise TypeError, []).
Proof. intros Hp. rewrite draw_eq, Hp, getProfile_unset. reflexivity. Qed.

(** [moment_fit] renders the current model, so it needs the parameters. *)
Lemma moment_fit_unset E self star :
  StarFit.params (Star.fit star) = None ->
  exists e, moment_fit E self star = (raise e, []).
Proof.
  intros Hp. unfold moment_fit.
  destruct (rbind (rbind (getitem _ "hsm") iter_prop) unpack6)
    as [e|[[[[[flux cenu] cenv] size] g1] g2]].
  - exists e. reflexivity.
  - change (inr ?x) with (ok x). rewrite mbind_lift_ok.
    destruct (Shear.of_g g1 g2) as [e|shape].
    + exists e. reflexivity.
    + change (inr shape) with (ok shape). rewrite mbind_lift_ok.
      rewrite (draw_unset E self star Hp). exists TypeError. reflexivity.
Qed.

Lemma of_g_zero : Shear.of_g 0 0 = ok (Shear.mk (0, 0)).
Proof. apply of_g_valid. lra. Qed.

Lemma cached_hsm props params :
  props !! "hsm" = Some (PTuple [1; 0; 0; 1; 0; 0]) ->
  rbind (rbind (getitem (StarData.properties (Star.data (Example.star_with props params)))
                  "hsm") iter_prop) unpack6
  = ok (1, 0, 0, 1, 0, 0).
Proof. intros H. cbn [Example.star_with Example.star_data Star.data StarData.properties].
  unfold getitem. rewrite H. reflexivity. Qed.

(** C4 (the code departs from it).  [Example.star_unset] has cached moments
    and no parameters.  Seeding from the moment fit never happens:
    [moment_fit] raises [TypeError] when it renders the model of the missing
    parameters, and so do [_lmfit_params] and [lmfit]. *)
Theorem lmfit_unset_params_raises :
  StarFit.params (Star.fit Example.star_unset) = None /\
  moment_fit (Example.ext 0) Example.model_n Example.star_unset = (raise TypeError, []) /\
  _lmfit_params (Example.ext 0) Example.model_n Example.star_unset true true true
    = (raise TypeError, []) /\
  lmfit_ (Example.ext 0) Example.model_n Example.star_unset = (raise TypeError, []).
Proof.
  assert (Hm : moment_fit (Example.ext 0) Example.model_n Example.star_unset
               = (raise TypeError, [])).
  { unfold moment_fit, Example.star_unset. rewrite cached_hsm by reflexivity.
    rewrite mbind_lift_ok, of_g_zero, mbind_lift_ok.
    rewrite draw_unset by reflexivity. reflexivity. }
  assert (Hp : _lmfit_params (Example.ext 0) Example.model_n Example.star_unset
                 true true true = (raise TypeError, [])).
  { unfold _lmfit_params. cbn [Example.star_unset Example.star_with Star.fit StarFit.params].
    change (Example.star_with Example.cached None) with Example.star_unset.
    rewrite Hm. reflexivity. }
  split; [reflexivity|]. split; [exact Hm|]. split; [exact Hp|].
  unfold lmfit_. rewrite Hp. reflexivity.
Qed.

(** ** The moment fit *)

Lemma decode_layout_unpack self fit du dv a b c :
  decode_layout self fit = Some (du, dv, a, b, c) ->
  (if _force_model_center self
   then rbind (rbind (iter_array (StarFit.params fit)) unpack3)
          (fun '(param_scale, param_g1, param_g2) =>
             let '(param_du, param_dv) := StarFit.center fit in
             ok (param_du, param_dv, param_scale, param_g1, param_g2))
   else rbind (iter_array (StarFit.params fit)) unpack5)
  = ok (du, dv, a, b, c).
Proof.
  unfold decode_layout. destruct (StarFit.params fit) as [p|]; [|discriminate].
  destruct (StarFit.center fit) as [cu cv].
  destruct (_force_model_center self);
    repeat (destruct p as [|? p]; try discriminate);
    intros H; inversion H; subst; reflexivity.
Qed.

(** With cached data moments [d], a profile for the current parameters and
    model moments [r] measured without error, [moment_fit] renders once,
    measures once and returns [moment_fit_value]. *)
Lemma moment_fit_eq E self star prof0 du dv a b c
    flux_d cenu_d cenv_d size_d g1_d g2_d flux_r cenu_r cenv_r size_r g1_r g2_r :
  StarData.properties (Star.data star) !! "hsm"
    = Some (PTuple [flux_d; cenu_d; cenv_d; size_d; g1_d; g2_d]) ->
  getProfile self (StarFit.params (Star.fit star)) = ok prof0 ->
  hsm E (drawn_star E self star prof0)
    = (flux_r, cenu_r, cenv_r, size_r, g1_r, g2_r, 0%Z) ->
  decode_layout self (Star.fit star) = Some (du, dv, a, b, c) ->
  fst (moment_fit E self star) =
  moment_fit_value (_unnormalized_basis self)
    (StarFit.flux (Star.fit star), du, dv, a, b, c)
    (flux_d, cenu_d, cenv_d, size_d, g1_d, g2_d)
    (flux_r, cenu_r, cenv_r, size_r, g1_r, g2_r).
Proof.
  intros Hd Hp Hr Hl. unfold moment_fit, moment_fit_value, getitem.
  rewrite Hd, rbind_ok. cbn [iter_prop]. rewrite rbind_ok. cbn [unpack6].
  rewrite mbind_lift_ok.
  destruct (Shear.of_g g1_d g2_d) as [e|shape_d]; [reflexivity|].
  change (inr shape_d) with (ok shape_d). rewrite mbind_lift_ok, rbind_ok.
  rewrite (draw_ok E self star prof0 Hp), mbind_ok_log. cbn [fst].
  unfold call_hsm. rewrite mbind_ok_log. cbn [fst]. rewrite Hr.
  destruct (Shear.of_g g1_r g2_r) as [e|shape_r]; [reflexivity|].
  change (inr shape_r) with (ok shape_r). rewrite mbind_lift_ok, rbind_ok.
  cbn [Z.eqb negb].
  rewrite (decode_layout_unpack _ _ _ _ _ _ _ Hl), mbind_lift_ok.
  destruct (_unnormalized_basis self).
  - destruct (convert_from_unnormalized_basis a b c) as [e|[[scale g1] g2]];
      [reflexivity|].
    change (inr (scale, g1, g2)) with (ok (scale, g1, g2)).
    rewrite !rbind_ok, mbind_lift_ok.
    destruct (Shear.of_g g1 c) as [e|shape]; [reflexivity|].
    change (inr shape) with (ok shape). rewrite mbind_lift_ok, rbind_ok.
    destruct (convert_to_unnormalized_basis _ _ _) as [e|[[scale' g1'] g2']];
      reflexivity.
  - rewrite mbind_lift_ok, rbind_ok.
    destruct (Shear.of_g b c) as [e|shape]; reflexivity.
Qed.

(** In the normalized basis the value is the update of the spec. *)
Lemma moment_fit_value_normalized (fitv d r : Moments) :
  moment_fit_value false fitv d r = momentFit_spec false fitv d r.
Proof.
  destruct fitv as [[[[[flux du] dv] a] b] c].
  destruct d as [[[[[flux_d cenu_d] cenv_d] size_d] g1_d] g2_d].
  destruct r as [[[[[flux_r cenu_r] cenv_r] size_r] g1_r] g2_r].
  unfold moment_fit_value, momentFit_spec, moment_update.
  destruct (Shear.of_g g1_d g2_d) as [e|shape_d]; [reflexivity|].
  destruct (Shear.of_g g1_r g2_r) as [e|shape_r]; [reflexivity|].
  cbn [rbind]. rewrite rbind_ok.
  destruct (Shear.of_g b c) as [e|shape]; reflexivity.
Qed.

Lemma moment_fit_normalized E self star prof0 du dv scale g1 g2
    flux_d cenu_d cenv_d size_d g1_d g2_d flux_r cenu_r cenv_r size_r g1_r g2_r :
  _unnormalized_basis self = false ->
  StarData.properties (Star.data star) !! "hsm"
    = Some (PTuple [flux_d; cenu_d; cenv_d; size_d; g1_d; g2_d]) ->
  getProfile self (StarFit.params (Star.fit star)) = ok prof0 ->
  hsm E (drawn_star E self star prof0)
    = (flux_r, cenu_r, cenv_r, size_r, g1_r, g2_r, 0%Z) ->
  decode_layout self (Star.fit star) = Some (du, dv, scale, g1, g2) ->
  fst (moment_fit E self star) =
  momentFit_spec false
    (StarFit.flux (Star.fit star), du, dv, scale, g1, g2)
    (flux_d, cenu_d, cenv_d, size_d, g1_d, g2_d)
    (flux_r, cenu_r, cenv_r, size_r, g1_r, g2_r).
Proof.
  intros Hub Hd Hp Hr Hl.
  rewrite (moment_fit_eq E self star prof0 _ _ _ _ _ _ _ _ _ _ _ _ _ _ _ _ _ Hd Hp Hr Hl).
  rewrite Hub. apply moment_fit_value_normalized.
Qed.

(** *** The unnormalized basis, on [Example.star_u] *)

Lemma shear_sub_zero : Shear.sub (Shear.mk (0, 0)) (Shear.mk (0, 0)) = Shear.mk (0, 0).
Proof.
  unfold Shear.sub, Shear.add, Shear.neg, Shear.cdiv, Shear.cadd, Shear.cmul, Shear.cconj.
  cbn [Shear._g fst snd]. f_equal. f_equal; field; lra.
Qed.

Lemma shear_add_zero (a b : R) :
  Shear.add (Shear.mk (a, b)) (Shear.mk (0, 0)) = Shear.mk (a, b).
Proof.
  unfold Shear.add, Shear.cdiv, Shear.cadd, Shear.cmul, Shear.cconj.
  cbn [Shear._g fst snd]. f_equal. f_equal; field; lra.
Qed.

Lemma sqrt_sq_eq (x y : R) : 0 <= y -> x = y * y -> sqrt x = y.
Proof. intros Hy ->. apply sqrt_square, Hy. Qed.

Lemma convert_from_example :
  convert_from_unnormalized_basis 1 0 (3 / 5) = ok (sqrt (2 / 5), 0, 1 / 3).
Proof.
  unfold convert_from_unnormalized_basis, Shear.of_e. cbv zeta.
  destruct (Rlt_dec 1 _) as [Hbad|_]; [exfalso; lra|].
  rewrite rbind_ok. unfold Shear.g1, Shear.g2, Shear._e2g. cbn [Shear._g fst snd].
  rewrite (sqrt_sq_eq (1 - ((0 / 1) ^ 2 + (3 / 5 / 1) ^ 2)) (4 / 5)) by lra.
  rewrite (sqrt_sq_eq (1 ^ 2 - 0 ^ 2 - (3 / 5) ^ 2) (4 / 5)) by lra.
  unfold ok. f_equal. f_equal; [f_equal|].
  - f_equal. lra.
  - lra.
  - lra.
Qed.

Lemma sqrt_two_fifths_sq : sqrt (2 / 5) ^ 2 = 2 / 5.
Proof. apply pow2_sqrt. lra. Qed.

Lemma sqrt_two_fifths_pos : 0 < sqrt (2 / 5).
Proof. apply sqrt_lt_R0. lra. Qed.

(** What the code converts back: the stored e2 = 3/5 taken for g2. *)
Lemma convert_to_example_code :
  convert_to_unnormalized_basis (sqrt (2 / 5)) 0 (3 / 5) = ok (17 / 10, 0, 3 / 2).
Proof.
  rewrite to_unnormalized_value by (try apply sqrt_two_fifths_pos; lra).
  unfold Shear._g2e, unnormalized_e0. rewrite sqrt_two_fifths_sq.
  unfold ok. f_equal. f_equal; [f_equal|]; field.
Qed.

(** What the spec converts back: g2 = 1/3. *)
Lemma convert_to_example_spec :
  convert_to_unnormalized_basis (sqrt (2 / 5)) 0 (1 / 3) = ok (1, 0, 3 / 5).
Proof.
  rewrite to_unnormalized_value by (try apply sqrt_two_fifths_pos; lra).
  unfold Shear._g2e, unnormalized_e0. rewrite sqrt_two_fifths_sq.
  unfold ok. f_equal. f_equal; [f_equal|]; field.
Qed.

Lemma getProfile_example_u :
  exists prof0,
    getProfile Example.model_u (StarFit.params (Star.fit Example.star_u)) = ok prof0.
Proof.
  unfold getProfile.
  cbn [Example.model_u GSObjectModel_init _force_model_center _unnormalized_basis gsobj
       Example.star_u Example.star_with Star.fit StarFit.params iter_array unpack3].
  rewrite rbind_ok. cbn [unpack3]. rewrite !rbind_ok.
  rewrite convert_from_example, rbind_ok.
  unfold gs_shear. rewrite of_g_valid by lra. rewrite !rbind_ok.
  eexists. reflexivity.
Qed.

(** C1 (the code departs from it in the unnormalized basis).
    [Example.star_u] stores (e0, e1, e2) = (1, 0, 3/5) and its data moments
    equal the moments of the rendered model, so the update changes nothing
    and the spec's [momentFit_spec] returns the stored triple.  [moment_fit]
    returns (17/10, 0, 3/2): it takes the stored e2 for the reduced shear g2. *)
Theorem moment_fit_unnormalized_departs :
  fst (moment_fit (Example.ext 0) Example.model_u Example.star_u)
    = ok (1, 0, 0, 17 / 10, 0, 3 / 2) /\
  momentFit_spec true (1, 0, 0, 1, 0, 3 / 5) (1, 0, 0, 1, 0, 0) (1, 0, 0, 1, 0, 0)
    = ok (1, 0, 0, 1, 0, 3 / 5).
Proof.
  split.
  - destruct getProfile_example_u as [prof0 Hp].
    rewrite (moment_fit_eq (Example.ext 0) Example.model_u Example.star_u prof0
               0 0 1 0 (3 / 5) 1 0 0 1 0 0 1 0 0 1 0 0);
      [|reflexivity|exact Hp|reflexivity|reflexivity].
    cbn [Example.model_u GSObjectModel_init _unnormalized_basis Example.star_u
         Example.star_with Star.fit StarFit.flux].
    unfold moment_fit_value. rewrite of_g_zero, !rbind_ok.
    rewrite convert_from_example, !rbind_ok.
    rewrite of_g_valid by lra. rewrite rbind_ok.
    rewrite shear_sub_zero, shear_add_zero.
    unfold Shear.g1, Shear.g2. cbn [Shear._g fst snd].
    replace (sqrt (2 / 5) * (1 / 1)) with (sqrt (2 / 5)) by field.
    rewrite convert_to_example_code, rbind_ok.
    unfold ok. do 6 f_equal; field.
  - unfold momentFit_spec, moment_update.
    rewrite convert_from_example, rbind_ok.
    rewrite of_g_zero, !rbind_ok. rewrite of_g_valid by lra. rewrite rbind_ok.
    rewrite shear_sub_zero, shear_add_zero.
    unfold Shear.g1, Shear.g2. cbn [Shear._g fst snd]. rewrite rbind_ok.
    replace (sqrt (2 / 5) * (1 / 1)) with (sqrt (2 / 5)) by field.
    rewrite convert_to_example_spec, rbind_ok.
    unfold ok. do 6 f_equal; field.
Qed.

(** * Further properties of the code *)

(** ** Sums over pixels *)

Lemma sum_nonneg (w m : list R) :
  Forall (fun x => 0 <= x) w -> 0 <= np.sum (np.mul w (np.square m)).
Proof.
  unfold np.sum, np.mul, np.square.
  intros Hw. revert m.
  induction Hw as [|x w Hx Hw IH]; intros [|y m]; cbn [zip_with map fold_right]; try lra.
  specialize (IH m). assert (0 <= y ^ 2) by nra. nra.
Qed.

(** [sum(w (d - r m)^2) = sum(w d^2) - 2 r sum(w d m) + r^2 sum(w m^2)] on one grid. *)
Lemma chisq_quadratic (r : R) (w d m : list R) :
  length d = length w -> length m = length w ->
  chisq_of w d (np.smul r m) =
  np.sum (np.mul w (np.square d)) - 2 * r * np.sum (np.mul (np.mul w d) m)
  + r * r * np.sum (np.mul w (np.square m)).
Proof.
  unfold chisq_of, np.sum, np.mul, np.square, np.sub, np.smul. revert d m.
  induction w as [|x w IH]; intros [|y d] [|z m] Hd Hm; try discriminate;
    cbn [zip_with map fold_right].
  - ring.
  - injection Hd as Hd. injection Hm as Hm. rewrite (IH d m Hd Hm). ring.
Qed.

(** The residual vector squared and summed is the chi-square. *)
Lemma resid_sum_squares (w d m : list R) :
  Forall (fun x => 0 <= x) w ->
  np.sum (np.square (np.mul (np.sqrt w) (np.sub m d))) = chisq_of w d m.
Proof.
  unfold chisq_of, np.sum, np.mul, np.square, np.sub, np.sqrt. intros Hw. revert d m.
  induction Hw as [|x w Hx Hw IH]; intros d m.
  - destruct m, d; reflexivity.
  - destruct m as [|z m], d as [|y d]; try reflexivity.
    cbn [zip_with map fold_right]. rewrite (IH d m).
    replace ((sqrt x * (z - y)) ^ 2) with ((sqrt x * sqrt x) * (z - y) ^ 2) by ring.
    rewrite sqrt_sqrt by assumption. ring.
Qed.

(** Data that are [k] times the model. *)
Lemma scaled_data_sums (k : R) (w m : list R) :
  np.sum (np.mul (np.mul w (np.smul k m)) m) = k * np.sum (np.mul w (np.square m)) /\
  chisq_of w (np.smul k m) (np.smul k m) = 0.
Proof.
  unfold chisq_of, np.sum, np.mul, np.square, np.sub, np.smul. revert m.
  induction w as [|x w IH]; intros [|z m]; cbn [zip_with map fold_right];
    try (split; ring).
  destruct (IH m) as [IH1 IH2]. rewrite IH1, IH2. split; ring.
Qed.

(** ** Reflux in flux-only mode: the least-squares flux *)

Lemma reflux_flux_only_ok E self star fit_center prof0 :
  fit_center && _force_model_center self = false ->
  getProfile self (StarFit.params (Star.fit star)) = ok prof0 ->
  reflux E self star fit_center =
  (ok (Star.mk (Star.data star)
         (StarFit.mk (StarFit.params (Star.fit star))
            (StarFit.flux (Star.fit star)
             * flux_ratio_of (Image.array (Star.weight star))
                 (Image.array (Star.image star)) (model_pixels E self star prof0))
            (StarFit.center (Star.fit star))
            (StarFit.alpha (Star.fit star))
            (StarFit.beta (Star.fit star))
            (Some (chisq_of (Image.array (Star.weight star)) (Image.array (Star.image star))
                     (np.smul (flux_ratio_of (Image.array (Star.weight star))
                                 (Image.array (Star.image star))
                                 (model_pixels E self star prof0))
                              (model_pixels E self star prof0))))
            (Some (np.count_nonzero (Image.array (Star.weight star)) - 1)%Z))),
   [CallDrawImage (drawn_profile star prof0) (Star.image star) (_method self)
      (draw_offset star)]).
Proof.
  intros Hmode Hp. unfold reflux. rewrite Hmode. cbn [StarData.getImage]. cbv zeta.
  rewrite (draw_ok E self star prof0 Hp), mbind_ok_log. reflexivity.
Qed.

(** A flux-only [reflux] that returns a star rendered a profile. *)
Lemma reflux_flux_only_inv E self star fit_center star' log :
  fit_center && _force_model_center self = false ->
  reflux E self star fit_center = (ok star', log) ->
  exists prof0, getProfile self (StarFit.params (Star.fit star)) = ok prof0.
Proof.
  intros Hmode H. destruct (getProfile self _) as [e|prof0] eqn:Hp; [|eauto].
  exfalso. revert H. unfold reflux. rewrite Hmode. cbn [StarData.getImage]. cbv zeta.
  rewrite draw_eq, Hp. discriminate.
Qed.

(** X1.  Flux-only [reflux] is exact on scaled data: when the data are [k]
    times the rendered model and [sum(w m^2)] is not zero, the new flux is
    [k] times the old one and the new chi-square is 0. *)
Theorem reflux_scaled_data_exact E self star fit_center prof0 k :
  fit_center && _force_model_center self = false ->
  getProfile self (StarFit.params (Star.fit star)) = ok prof0 ->
  Image.array (Star.image star) = np.smul k (model_pixels E self star prof0) ->
  np.sum (np.mul (Image.array (Star.weight star))
            (np.square (model_pixels E self star prof0))) <> 0 ->
  exists star' log,
    reflux E self star fit_center = (ok star', log) /\
    StarFit.flux (Star.fit star') = StarFit.flux (Star.fit star) * k /\
    StarFit.chisq (Star.fit star') = Some 0.
Proof.
  intros Hmode Hp Hd Hnz. eexists _, _. split.
  - apply (reflux_flux_only_ok E self star fit_center prof0 Hmode Hp).
  - cbn [Star.fit StarFit.flux StarFit.chisq].
    set (w := Image.array (Star.weight star)) in *.
    set (m := model_pixels E self star prof0) in *.
    destruct (scaled_data_sums k w m) as [Hb Hc].
    assert (Hr : flux_ratio_of w (Image.array (Star.image star)) m = k).
    { unfold flux_ratio_of. rewrite Hd, Hb. field. exact Hnz. }
    rewrite Hr. split; [reflexivity|]. rewrite Hd, Hc. reflexivity.
Qed.

(** X2.  Flux-only [reflux] returns the least chi-square over all rescalings
    of the rendered model: for nonnegative weights on a common pixel grid
    and [sum(w m^2)] not zero, its chi-square is at most [sum(w (d - r m)^2)]
    for every [r], the chi-square of the unscaled model ([r = 1]) included. *)
Theorem reflux_chisq_least E self star fit_center prof0 star' log :
  fit_center && _force_model_center self = false ->
  getProfile self (StarFit.params (Star.fit star)) = ok prof0 ->
  length (Image.array (Star.image star)) = length (Image.array (Star.weight star)) ->
  length (model_pixels E self star prof0) = length (Image.array (Star.weight star)) ->
  Forall (fun x => 0 <= x) (Image.array (Star.weight star)) ->
  np.sum (np.mul (Image.array (Star.weight star))
            (np.square (model_pixels E self star prof0))) <> 0 ->
  reflux E self star fit_center = (ok star', log) ->
  exists c,
    StarFit.chisq (Star.fit star') = Some c /\
    forall r, c <= chisq_of (Image.array (Star.weight star)) (Image.array (Star.image star))
                     (np.smul r (model_pixels E self star prof0)).
Proof.
  intros Hmode Hp Hld Hlm Hw Hnz H.
  rewrite (reflux_flux_only_ok E self star fit_center prof0 Hmode Hp) in H.
  inversion H; subst; clear H. cbn [Star.fit StarFit.chisq]. eexists. split; [reflexivity|].
  intros r.
  set (w := Image.array (Star.weight star)) in *.
  set (d := Image.array (Star.image star)) in *.
  set (m := model_pixels E self star prof0) in *.
  rewrite !(chisq_quadratic _ w d m Hld Hlm). unfold flux_ratio_of.
  pose proof (sum_nonneg w m Hw) as HA.
  set (A := np.sum (np.mul w (np.square m))) in *.
  set (B := np.sum (np.mul (np.mul w d) m)).
  set (C := np.sum (np.mul w (np.square d))).
  assert (HApos : 0 < A) by lra.
  assert (Hdiff : C - 2 * r * B + r * r * A - (C - 2 * (B / A) * B + B / A * (B / A) * A)
                  = A * ((r - B / A) * (r - B / A))) by (field; lra).
  assert (0 <= A * ((r - B / A) * (r - B / A)))
    by (apply Rmult_le_pos; [lra | exact (Rle_0_sqr _)]).
  lra.
Qed.

Lemma example_scaled :
  Image.array (Star.image Example.star_n)
  = np.smul 2 (model_pixels (Example.ext 0) Example.model_n Example.star_n example_profile).
Proof. cbn. repeat f_equal; lra. Qed.

Lemma example_model_nonzero :
  np.sum (np.mul (Image.array (Star.weight Example.star_n))
            (np.square (model_pixels (Example.ext 0) Example.model_n Example.star_n
                          example_profile))) <> 0.
Proof. cbn. lra. Qed.

Lemma example_weights_nonneg :
  Forall (fun x => 0 <= x) (Image.array (Star.weight Example.star_n)).
Proof. cbn. repeat constructor; lra. Qed.

Lemma reflux_scaled_data_exact_witness :
  exists star' log,
    reflux (Example.ext 0) Example.model_n Example.star_n false = (ok star', log) /\
    StarFit.flux (Star.fit star') = StarFit.flux (Star.fit Example.star_n) * 2 /\
    StarFit.chisq (Star.fit star') = Some 0.
Proof.
  apply (reflux_scaled_data_exact (Example.ext 0) Example.model_n Example.star_n false
           example_profile 2).
  - reflexivity.
  - exact getProfile_example_n.
  - exact example_scaled.
  - exact example_model_nonzero.
Defined.

Lemma reflux_chisq_least_witness :
  exists star' log,
    reflux (Example.ext 0) Example.model_n Example.star_n false = (ok star', log) /\
    exists c,
      StarFit.chisq (Star.fit star') = Some c /\
      forall r, c <= chisq_of (Image.array (Star.weight Example.star_n))
                       (Image.array (Star.image Example.star_n))
                       (np.smul r (model_pixels (Example.ext 0) Example.model_n
                                     Example.star_n example_profile)).
Proof.
  eexists _, _. split.
  - apply (reflux_flux_only_ok (Example.ext 0) Example.model_n Example.star_n false
             example_profile); [reflexivity | exact getProfile_example_n].
  - eapply (reflux_chisq_least (Example.ext 0) Example.model_n Example.star_n false
              example_profile).
    + reflexivity.
    + exact getProfile_example_n.
    + reflexivity.
    + reflexivity.
    + exact example_weights_nonneg.
    + exact example_model_nonzero.
    + apply (reflux_flux_only_ok (Example.ext 0) Example.model_n Example.star_n false
               example_profile); [reflexivity | exact getProfile_example_n].
Defined.

(** ** The residual evaluator *)

Lemma lift_ok_inv {A} (r : Result A) (a : A) (l : list Call) :
  lift r = (ok a, l) -> r = ok a /\ l = [].
Proof. unfold lift. intros H. inversion H. auto. Qed.

(** The star's stamp as the residual evaluator reads it. *)
Lemma lmfit_resid_value E self q star flux du dv scale g1 g2 shear :
  (if _unnormalized_basis self
   then rbind (unpack6 (lmfit.values q))
          (fun '(flux, du, dv, e0, e1, e2) =>
             rbind (convert_from_unnormalized_basis e0 e1 e2)
               (fun '(scale, g1, g2) => ok (flux, du, dv, scale, g1, g2)))
   else unpack6 (lmfit.values q)) = ok (flux, du, dv, scale, g1, g2) ->
  Shear.of_g g1 g2 = ok shear ->
  _lmfit_resid E self q star =
  (ok (np.mul (np.sqrt (Image.array (Star.weight star)))
         (np.sub (Image.array (drawImage E (resid_profile self flux du dv scale shear)
                                 (Star.image star) (_method self) (draw_offset star)))
                 (Image.array (Star.image star)))),
   [CallDrawImage (resid_profile self flux du dv scale shear) (Star.image star)
      (_method self) (draw_offset star)]).
Proof.
  intros Hv Hs. unfold _lmfit_resid. cbn [StarData.getImage]. cbv zeta.
  rewrite Hv, mbind_lift_ok. unfold gs_shear. rewrite Hs, rbind_ok, mbind_lift_ok.
  unfold call_drawImage. rewrite mbind_ok_log. reflexivity.
Qed.

(** X3.  The residual vector is the chi of the chi-square: when
    [_lmfit_resid] returns, it rendered exactly one profile, and for
    nonnegative weights the sum of the squares of the vector is
    [sum(w (data - model)^2)] for the pixels of that rendering, the
    formula of [fit] and [reflux]. *)
Theorem lmfit_resid_sum_squares E self q star chi log :
  Forall (fun x => 0 <= x) (Image.array (Star.weight star)) ->
  _lmfit_resid E self q star = (ok chi, log) ->
  exists prof,
    log = [CallDrawImage prof (Star.image star) (_method self) (draw_offset star)] /\
    np.sum (np.square chi)
    = chisq_of (Image.array (Star.weight star)) (Image.array (Star.image star))
        (Image.array (drawImage E prof (Star.image star) (_method self) (draw_offset star))).
Proof.
  intros Hw H. unfold _lmfit_resid in H. cbn [StarData.getImage] in H. cbv zeta in H.
  minv H. destruct a as [[[[[flux du] dv] scale] g1] g2].
  apply lift_ok_inv in H0 as [_ ->].
  minv H. apply lift_ok_inv in H0 as [Hs ->].
  unfold gs_shear in Hs. destruct (Shear.of_g g1 g2) as [e|shear]; [discriminate|].
  inversion Hs; subst a; clear Hs.
  unfold call_drawImage in H. rewrite mbind_ok_log in H. inversion H; subst; clear H.
  eexists. split; [reflexivity|]. apply resid_sum_squares, Hw.
Qed.

Lemma lmfit_resid_sum_squares_witness :
  exists chi log prof,
    _lmfit_resid (Example.ext 0) Example.model_n
      (param_set false 1 0 0 1 0 0 true true true) Example.star_n = (ok chi, log) /\
    log = [CallDrawImage prof (Star.image Example.star_n) (_method Example.model_n)
             (draw_offset Example.star_n)] /\
    np.sum (np.square chi)
    = chisq_of (Image.array (Star.weight Example.star_n))
        (Image.array (Star.image Example.star_n))
        (Image.array (drawImage (Example.ext 0) prof (Star.image Example.star_n)
                        (_method Example.model_n) (draw_offset Example.star_n))).
Proof.
  assert (H : _lmfit_resid (Example.ext 0) Example.model_n
                (param_set false 1 0 0 1 0 0 true true true) Example.star_n
              = (ok _, _))
    by (apply (lmfit_resid_value _ _ _ _ 1 0 0 1 0 0 (Shear.mk (0, 0)));
        [reflexivity | exact of_g_zero]).
  destruct (lmfit_resid_sum_squares (Example.ext 0) Example.model_n _ Example.star_n _ _
              example_weights_nonneg H) as (prof & Hlog & Hsum).
  eexists _, _, prof. split; [exact H|]. split; [exact Hlog | exact Hsum].
Defined.

(** ** The parameter set and the candidates within its bounds *)

Lemma lmfit_params_param_set E self star vp vf vc ps log :
  _lmfit_params E self star vp vf vc = (ok ps, log) ->
  exists du dv scale g1 g2,
    decode_layout self (Star.fit star) = Some (du, dv, scale, g1, g2) /\
    ps = param_set (_unnormalized_basis self) (StarFit.flux (Star.fit star))
           du dv scale g1 g2 vp vf vc /\
    log = [].
Proof.
  intros H. destruct (lmfit_params_inv _ _ _ _ _ _ _ _ H) as (du & dv & scale & g1 & g2 & Hl).
  rewrite (lmfit_params_set E self star vp vf vc _ _ _ _ _ Hl) in H.
  inversion H; subst. exists du, dv, scale, g1, g2. auto.
Qed.

Lemma respects_bounds_six b flux du dv size s1 s2 vp vf vc q :
  respects_bounds (param_set b flux du dv size s1 s2 vp vf vc) q ->
  exists q1 q2 q3 q4 q5 q6,
    q = [q1; q2; q3; q4; q5; q6] /\
    0 <= lmfit.value q4 /\
    - (if b then 5 else 7 / 10) <= lmfit.value q5 <= (if b then 5 else 7 / 10) /\
    - (if b then 5 else 7 / 10) <= lmfit.value q6 <= (if b then 5 else 7 / 10).
Proof.
  unfold respects_bounds, param_set. intros Hq.
  repeat match goal with
         | Hq : Forall2 _ (_ :: _) _ |- _ => inversion Hq; subst; clear Hq
         | Hq : Forall2 _ [] _ |- _ => inversion Hq; subst; clear Hq
         end.
  eexists _, _, _, _, _, _. split; [reflexivity|].
  repeat match goal with
         | Hb : _ /\ in_bounds _ _ |- _ => destruct Hb as [_ [? ?]]
         end.
  cbn [lmfit.min lmfit.max] in *. auto.
Qed.

(** X4.  In the normalized basis the bounds keep the shear in its domain:
    for a parameter set built by [_lmfit_params], every candidate within the
    bounds is evaluated by [_lmfit_resid] without error, with one rendering. *)
Theorem resid_defined_within_bounds E self star vp vf vc ps log q :
  _unnormalized_basis self = false ->
  _lmfit_params E self star vp vf vc = (ok ps, log) ->
  respects_bounds ps q ->
  exists chi prof,
    _lmfit_resid E self q star =
    (ok chi, [CallDrawImage prof (Star.image star) (_method self) (draw_offset star)]).
Proof.
  intros Hub Hps Hq.
  destruct (lmfit_params_param_set _ _ _ _ _ _ _ _ Hps)
    as (du & dv & scale & g1 & g2 & _ & -> & _).
  rewrite Hub in Hq.
  destruct (respects_bounds_six _ _ _ _ _ _ _ _ _ _ _ Hq)
    as (q1 & q2 & q3 & q4 & q5 & q6 & -> & _ & H5 & H6).
  eexists _, _.
  apply (lmfit_resid_value E self _ star (lmfit.value q1) (lmfit.value q2) (lmfit.value q3)
           (lmfit.value q4) (lmfit.value q5) (lmfit.value q6)
           (Shear.mk (lmfit.value q5, lmfit.value q6))).
  - rewrite Hub. reflexivity.
  - apply of_g_valid. nra.
Qed.

Lemma resid_defined_within_bounds_witness :
  exists ps log,
    _lmfit_params (Example.ext 0) Example.model_n Example.star_n true true true
      = (ok ps, log) /\
    forall q, respects_bounds ps q ->
      exists chi prof,
        _lmfit_resid (Example.ext 0) Example.model_n q Example.star_n =
        (ok chi, [CallDrawImage prof (Star.image Example.star_n) (_method Example.model_n)
                    (draw_offset Example.star_n)]).
Proof.
  eexists _, _. split; [reflexivity|]. intros q Hq.
  eapply (resid_defined_within_bounds (Example.ext 0) Example.model_n Example.star_n
            true true true); [reflexivity | reflexivity | exact Hq].
Defined.

(** X5.  In the unnormalized basis the bounds do not: whenever
    [_lmfit_params] builds a set, the candidate with (e0, e1, e2) = (1, 5, 0)
    is within its bounds and [_lmfit_resid] raises [GalSimRangeError] on it,
    before anything is rendered. *)
Theorem resid_raises_within_bounds E self star vp vf vc ps log :
  _unnormalized_basis self = true ->
  _lmfit_params E self star vp vf vc = (ok ps, log) ->
  exists q,
    respects_bounds ps q /\
    _lmfit_resid E self q star =
    (raise (GalSimRangeError "Requested distortion exceeds 1."), []).
Proof.
  intros Hub Hps.
  destruct (lmfit_params_param_set _ _ _ _ _ _ _ _ Hps)
    as (du & dv & scale & g1 & g2 & _ & -> & _).
  rewrite Hub.
  exists (param_set true 0 du dv 1 5 0 vp vf vc). split.
  - unfold respects_bounds, param_set, in_bounds.
    repeat match goal with |- Forall2 _ _ _ => constructor end;
      cbn [lmfit.min lmfit.max lmfit.name lmfit.value];
      (split; [reflexivity | split; try exact I; lra]).
  - unfold _lmfit_resid. cbn [StarData.getImage]. cbv zeta. rewrite Hub.
    cbn [param_set lmfit.values map lmfit.value unpack6]. rewrite rbind_ok.
    unfold convert_from_unnormalized_basis, Shear.of_e. cbv zeta.
    destruct (Rlt_dec 1 _) as [_|Hok]; [reflexivity|].
    exfalso. apply Hok. lra.
Qed.

Lemma resid_raises_within_bounds_witness :
  exists ps log q,
    _lmfit_params (Example.ext 0) Example.model_u Example.star_u true true true
      = (ok ps, log) /\
    respects_bounds ps q /\
    _lmfit_resid (Example.ext 0) Example.model_u q Example.star_u =
    (raise (GalSimRangeError "Requested distortion exceeds 1."), []).
Proof.
  destruct (resid_raises_within_bounds (Example.ext 0) Example.model_u Example.star_u
              true true true _ _ eq_refl eq_refl) as (q & Hq & Hr).
  eexists _, _, q. split; [reflexivity|]. split; [exact Hq | exact Hr].
Defined.

(** ** The nonlinear fit and the flux and center mode of reflux *)

(** X6.  [lmfit] hands the minimizer the stored values with every entry
    free to vary, calls it once, and returns its six values in order when
    it reports success; when it does not, [lmfit] raises [RuntimeError]. *)
Theorem lmfit_outcome E self star du dv scale g1 g2 res f u v s a b :
  decode_layout self (Star.fit star) = Some (du, dv, scale, g1, g2) ->
  minimize E (fun lmparams => _lmfit_resid E self lmparams star)
    (param_set (_unnormalized_basis self) (StarFit.flux (Star.fit star))
       du dv scale g1 g2 true true true) = ok res ->
  lmfit.values (lmfit.params res) = [f; u; v; s; a; b] ->
  lmfit_ E self star =
  (if lmfit.success res
   then ok (f, u, v, s, a, b)
   else raise (RuntimeError "Error fitting with lmfit."),
   [CallMinimize (param_set (_unnormalized_basis self) (StarFit.flux (Star.fit star))
                    du dv scale g1 g2 true true true) star]).
Proof.
  intros Hl Hmin Hv. unfold lmfit_.
  rewrite (lmfit_params_set E self star true true true _ _ _ _ _ Hl).
  fold (param_set (_unnormalized_basis self) (StarFit.flux (Star.fit star))
          du dv scale g1 g2 true true true).
  rewrite mbind_ok_log. cbn [fst snd app].
  unfold _lmfit_minimize, call_minimize. rewrite Hmin, (mbind_ok_log res).
  cbn [fst snd app]. rewrite Hv. cbn [unpack6]. rewrite mbind_lift_ok.
  destruct (lmfit.success res); reflexivity.
Qed.

Lemma lmfit_outcome_witness :
  lmfit_ (Example.ext 0) Example.model_n Example.star_n =
  (if lmfit.success (lmfit.mkResult (param_set false 1 0 0 1 0 0 true true true) true 0)
   then ok (1, 0, 0, 1, 0, 0)
   else raise (RuntimeError "Error fitting with lmfit."),
   [CallMinimize (param_set (_unnormalized_basis Example.model_n)
                    (StarFit.flux (Star.fit Example.star_n)) 0 0 1 0 0 true true true)
      Example.star_n]).
Proof.
  apply (lmfit_outcome (Example.ext 0) Example.model_n Example.star_n 0 0 1 0 0
           (lmfit.mkResult (param_set false 1 0 0 1 0 0 true true true) true 0)
           1 0 0 1 0 0); reflexivity.
Defined.

(** X7.  With [fit_center] and a forced model center, [reflux] calls the
    minimizer once on the stored values with flux, du and dv free and size
    and shape held fixed, and builds the Star from the flux, du, dv and
    chi-square of its result without looking at its success flag;
    [dof] is the number of nonzero weights minus 3. *)
Theorem reflux_center_outcome E self star du dv scale g1 g2 res pflux pdu pdv :
  _force_model_center self = true ->
  decode_layout self (Star.fit star) = Some (du, dv, scale, g1, g2) ->
  minimize E (fun lmparams => _lmfit_resid E self lmparams star)
    (param_set (_unnormalized_basis self) (StarFit.flux (Star.fit star))
       du dv scale g1 g2 false true true) = ok res ->
  lmfit.getitem (lmfit.params res) "flux" = ok pflux ->
  lmfit.getitem (lmfit.params res) "du" = ok pdu ->
  lmfit.getitem (lmfit.params res) "dv" = ok pdv ->
  reflux E self star true =
  (ok (Star.mk (Star.data star)
         (StarFit.mk (StarFit.params (Star.fit star))
            (lmfit.value pflux)
            (lmfit.value pdu, lmfit.value pdv)
            (StarFit.alpha (Star.fit star))
            (StarFit.beta (Star.fit star))
            (Some (lmfit.chisqr res))
            (Some (np.count_nonzero (Image.array (Star.weight star)) - 3)%Z))),
   [CallMinimize (param_set (_unnormalized_basis self) (StarFit.flux (Star.fit star))
                    du dv scale g1 g2 false true true) star]).
Proof.
  intros Hc Hl Hmin Hf Hu Hv.
  apply (reflux_center E self star _ res pflux pdu pdv); try assumption.
  apply (lmfit_params_set E self star false true true _ _ _ _ _ Hl).
Qed.

Lemma reflux_center_outcome_witness :
  reflux (Example.ext 0) Example.model_n Example.star_n true =
  (ok (Star.mk (Star.data Example.star_n)
         (StarFit.mk (StarFit.params (Star.fit Example.star_n))
            (lmfit.value (lmfit.mkParam "flux" 1 true (Some 0) None))
            (lmfit.value (lmfit.mkParam "du" 0 true None None),
             lmfit.value (lmfit.mkParam "dv" 0 true None None))
            (StarFit.alpha (Star.fit Example.star_n))
            (StarFit.beta (Star.fit Example.star_n))
            (Some (lmfit.chisqr
                     (lmfit.mkResult (param_set false 1 0 0 1 0 0 false true true) true 0)))
            (Some (np.count_nonzero (Image.array (Star.weight Example.star_n)) - 3)%Z))),
   [CallMinimize (param_set (_unnormalized_basis Example.model_n)
                    (StarFit.flux (Star.fit Example.star_n)) 0 0 1 0 0 false true true)
      Example.star_n]).
Proof.
  apply (reflux_center_outcome (Example.ext 0) Example.model_n Example.star_n 0 0 1 0 0
           (lmfit.mkResult (param_set false 1 0 0 1 0 0 false true true) true 0)
           (lmfit.mkParam "flux" 1 true (Some 0) None)
           (lmfit.mkParam "du" 0 true None None)
           (lmfit.mkParam "dv" 0 true None None)); reflexivity.
Defined.

(** ** The moment fit: errors, and a converged fit *)

Lemma shear_sub_self (s : Shear.t) : Shear.sub s s = Shear.mk (0, 0).
Proof.
  destruct s as [[a b]].
  unfold Shear.sub, Shear.add, Shear.neg, Shear.cdiv, Shear.cadd, Shear.cmul, Shear.cconj.
  cbn [Shear._g fst snd]. f_equal. unfold Rdiv. f_equal; ring.
Qed.

(** X8.  [moment_fit] reads the data moments from the properties: without
    the entry ["hsm"] it raises [KeyError] and renders nothing. *)
Theorem moment_fit_missing_moments E self star :
  StarData.properties (Star.data star) !! "hsm" = None ->
  moment_fit E self star = (raise (KeyError "hsm"), []).
Proof.
  intros H. unfold moment_fit, getitem. rewrite H. reflexivity.
Qed.

Lemma moment_fit_missing_moments_witness :
  moment_fit (Example.ext 0) Example.model_n (Example.star_with ∅ (Some [1; 0; 0]))
  = (raise (KeyError "hsm"), []).
Proof.
  apply (moment_fit_missing_moments (Example.ext 0) Example.model_n
           (Example.star_with ∅ (Some [1; 0; 0]))).
  reflexivity.
Defined.

Ltac moment_fit_measure Hd Hgd Hp Hr :=
  unfold moment_fit, getitem; rewrite Hd, rbind_ok; cbn [iter_prop];
  rewrite rbind_ok; cbn [unpack6];
  rewrite mbind_lift_ok, (of_g_valid _ _ Hgd), mbind_lift_ok;
  rewrite (draw_ok _ _ _ _ Hp), mbind_ok_log; cbn [fst snd];
  unfold call_hsm; rewrite mbind_ok_log; cbn [fst snd]; rewrite Hr.

(** X9.  When the moments of the rendered model cannot be measured (nonzero
    flag) and the shear that comes with the flag is in range, [moment_fit]
    raises [ModelFitError] after one rendering and one measurement. *)
Theorem moment_fit_model_failure E self star prof0
    flux_d cenu_d cenv_d size_d g1_d g2_d flux_r cenu_r cenv_r size_r g1_r g2_r flag :
  StarData.properties (Star.data star) !! "hsm"
    = Some (PTuple [flux_d; cenu_d; cenv_d; size_d; g1_d; g2_d]) ->
  g1_d ^ 2 + g2_d ^ 2 < 1 ->
  getProfile self (StarFit.params (Star.fit star)) = ok prof0 ->
  hsm E (drawn_star E self star prof0)
    = (flux_r, cenu_r, cenv_r, size_r, g1_r, g2_r, flag) ->
  flag <> 0%Z ->
  g1_r ^ 2 + g2_r ^ 2 < 1 ->
  moment_fit E self star =
  (raise (ModelFitError "Error calculating model moments for this star."),
   [CallDrawImage (drawn_profile star prof0) (Star.image star) (_method self)
      (draw_offset star);
    CallHsm (drawn_star E self star prof0)]).
Proof.
  intros Hd Hgd Hp Hr Hflag Hgr. moment_fit_measure Hd Hgd Hp Hr.
  rewrite (of_g_valid _ _ Hgr), mbind_lift_ok.
  apply Z.eqb_neq in Hflag. rewrite Hflag. reflexivity.
Qed.

Lemma moment_fit_model_failure_witness :
  moment_fit (Example.ext 1) Example.model_n Example.star_n =
  (raise (ModelFitError "Error calculating model moments for this star."),
   [CallDrawImage (drawn_profile Example.star_n example_profile)
      (Star.image Example.star_n) (_method Example.model_n) (draw_offset Example.star_n);
    CallHsm (drawn_star (Example.ext 1) Example.model_n Example.star_n example_profile)]).
Proof.
  apply (moment_fit_model_failure (Example.ext 1) Example.model_n Example.star_n
           example_profile 1 0 0 1 0 0 1 0 0 1 0 0 1%Z).
  - reflexivity.
  - lra.
  - exact getProfile_example_n.
  - reflexivity.
  - discriminate.
  - lra.
Defined.

(** X10.  The shear of the model moments is built before the flag is
    tested: a failed measurement that reports a shear beyond 1 surfaces as
    [GalSimRangeError], not as [ModelFitError]. *)
Theorem moment_fit_failure_masked E self star prof0
    flux_d cenu_d cenv_d size_d g1_d g2_d flux_r cenu_r cenv_r size_r g1_r g2_r flag :
  StarData.properties (Star.data star) !! "hsm"
    = Some (PTuple [flux_d; cenu_d; cenv_d; size_d; g1_d; g2_d]) ->
  g1_d ^ 2 + g2_d ^ 2 < 1 ->
  getProfile self (StarFit.params (Star.fit star)) = ok prof0 ->
  hsm E (drawn_star E self star prof0)
    = (flux_r, cenu_r, cenv_r, size_r, g1_r, g2_r, flag) ->
  flag <> 0%Z ->
  1 < g1_r ^ 2 + g2_r ^ 2 ->
  moment_fit E self star =
  (raise (GalSimRangeError "Requested shear exceeds 1."),
   [CallDrawImage (drawn_profile star prof0) (Star.image star) (_method self)
      (draw_offset star);
    CallHsm (drawn_star E self star prof0)]).
Proof.
  intros Hd Hgd Hp Hr Hflag Hgr.
  assert (Hbad : Shear.of_g g1_r g2_r = raise (GalSimRangeError "Requested shear exceeds 1.")).
  { unfold Shear.of_g. destruct (Rlt_dec 1 _) as [_|Hn]; [reflexivity|].
    exfalso. apply Hn. rewrite <- sqrt_1. apply sqrt_lt_1; nra. }
  moment_fit_measure Hd Hgd Hp Hr. rewrite Hbad. reflexivity.
Qed.

Lemma moment_fit_failure_masked_witness :
  moment_fit example_ext_beyond Example.model_n Example.star_n =
  (raise (GalSimRangeError "Requested shear exceeds 1."),
   [CallDrawImage (drawn_profile Example.star_n example_profile)
      (Star.image Example.star_n) (_method Example.model_n) (draw_offset Example.star_n);
    CallHsm (drawn_star example_ext_beyond Example.model_n Example.star_n example_profile)]).
Proof.
  apply (moment_fit_failure_masked example_ext_beyond Example.model_n Example.star_n
           example_profile 1 0 0 1 0 0 1 0 0 1 2 0 1%Z).
  - reflexivity.
  - lra.
  - exact getProfile_example_n.
  - reflexivity.
  - discriminate.
  - lra.
Defined.

Lemma moment_fit_fixed_point E self star prof0 du dv scale g1 g2
    flux_d cenu_d cenv_d size_d g1_d g2_d :
  _unnormalized_basis self = false ->
  StarData.properties (Star.data star) !! "hsm"
    = Some (PTuple [flux_d; cenu_d; cenv_d; size_d; g1_d; g2_d]) ->
  getProfile self (StarFit.params (Star.fit star)) = ok prof0 ->
  hsm E (drawn_star E self star prof0)
    = (flux_d, cenu_d, cenv_d, size_d, g1_d, g2_d, 0%Z) ->
  decode_layout self (Star.fit star) = Some (du, dv, scale, g1, g2) ->
  flux_d <> 0 -> size_d <> 0 ->
  g1_d ^ 2 + g2_d ^ 2 < 1 -> g1 ^ 2 + g2 ^ 2 < 1 ->
  fst (moment_fit E self star) = ok (StarFit.flux (Star.fit star), du, dv, scale, g1, g2).
Proof.
  intros Hub Hd Hp Hr Hl Hf Hs Hgd Hg.
  rewrite (moment_fit_eq E self star prof0 _ _ _ _ _ _ _ _ _ _ _ _ _ _ _ _ _ Hd Hp Hr Hl).
  rewrite Hub. unfold moment_fit_value.
  rewrite (of_g_valid _ _ Hgd), !rbind_ok, (of_g_valid _ _ Hg), !rbind_ok.
  rewrite shear_sub_self, shear_add_zero.
  unfold Shear.g1, Shear.g2. cbn [Shear._g fst snd].
  unfold ok. f_equal. repeat (apply pair_equal_spec; split); try reflexivity;
    field; assumption.
Qed.

(** X11.  A converged fit is a fixed point of [moment_fit] in the normalized
    basis: when the moments of the rendered model equal the cached data
    moments (flux and size not zero, shears below 1), the six values
    returned are the stored flux, center, scale and shape. *)
Theorem moment_fit_converged E self star prof0 du dv scale g1 g2
    flux_d cenu_d cenv_d size_d g1_d g2_d :
  _unnormalized_basis self = false ->
  StarData.properties (Star.data star) !! "hsm"
    = Some (PTuple [flux_d; cenu_d; cenv_d; size_d; g1_d; g2_d]) ->
  getProfile self (StarFit.params (Star.fit star)) = ok prof0 ->
  hsm E (drawn_star E self star prof0)
    = (flux_d, cenu_d, cenv_d, size_d, g1_d, g2_d, 0%Z) ->
  decode_layout self (Star.fit star) = Some (du, dv, scale, g1, g2) ->
  flux_d <> 0 -> size_d <> 0 ->
  g1_d ^ 2 + g2_d ^ 2 < 1 -> g1 ^ 2 + g2 ^ 2 < 1 ->
  fst (moment_fit E self star) = ok (StarFit.flux (Star.fit star), du, dv, scale, g1, g2).
Proof.
  intros Hub Hd Hp Hr Hl Hf Hs Hgd Hg.
  exact (moment_fit_fixed_point E self star prof0 du dv scale g1 g2 _ _ _ _ _ _
           Hub Hd Hp Hr Hl Hf Hs Hgd Hg).
Qed.

Lemma moment_fit_converged_witness :
  fst (moment_fit (Example.ext 0) Example.model_n Example.star_n)
  = ok (StarFit.flux (Star.fit Example.star_n), 0, 0, 1, 0, 0).
Proof.
  apply (moment_fit_converged (Example.ext 0) Example.model_n Example.star_n
           example_profile 0 0 1 0 0 1 0 0 1 0 0);
    try reflexivity; try exact getProfile_example_n; lra.
Defined.

(** ** Caching the moments *)

(** X12.  What [with_hsm] stores is what [moment_fit] reads: after a
    successful measurement the entry ["hsm"] holds the six measured values,
    whatever it held before, every other property and the fit are
    untouched, and looking the entry up and unpacking it gives the values
    back. *)
Theorem with_hsm_store_lookup E star flux cenu cenv size g1 g2 :
  hsm E star = (flux, cenu, cenv, size, g1, g2, 0%Z) ->
  exists star',
    with_hsm E star = (ok star', [CallHsm star]) /\
    Star.fit star' = Star.fit star /\
    (forall key, key <> "hsm" ->
       StarData.properties (Star.data star') !! key
       = StarData.properties (Star.data star) !! key) /\
    rbind (rbind (getitem (StarData.properties (Star.data star')) "hsm") iter_prop) unpack6
    = ok (flux, cenu, cenv, size, g1, g2).
Proof.
  intros Hr. rewrite with_hsm_measures, Hr. cbn [Z.eqb].
  eexists. split; [reflexivity|]. cbn [Star.fit Star.data StarData.set_property
                                       StarData.properties].
  split; [reflexivity|]. split.
  - intros key Hk. apply lookup_insert_ne. congruence.
  - unfold getitem. rewrite lookup_insert_eq. reflexivity.
Qed.

Lemma with_hsm_store_lookup_witness :
  exists star',
    with_hsm (Example.ext 0) Example.star_unset = (ok star', [CallHsm Example.star_unset]) /\
    Star.fit star' = Star.fit Example.star_unset /\
    (forall key, key <> "hsm" ->
       StarData.properties (Star.data star') !! key
       = StarData.properties (Star.data Example.star_unset) !! key) /\
    rbind (rbind (getitem (StarData.properties (Star.data star')) "hsm") iter_prop) unpack6
    = ok (1, 0, 0, 1, 0, 0).
Proof.
  apply (with_hsm_store_lookup (Example.ext 0) Example.star_unset 1 0 0 1 0 0).
  reflexivity.
Defined.

(** ** Parameter vectors of the wrong length *)

Lemma unpack3_length (l : list R) : length l <> 3%nat -> unpack3 l = raise ValueError.
Proof. repeat (destruct l as [|? l]; try reflexivity). intros H. cbn in H. congruence. Qed.

Lemma unpack5_length (l : list R) : length l <> 5%nat -> unpack5 l = raise ValueError.
Proof. repeat (destruct l as [|? l]; try reflexivity). intros H. cbn in H. congruence. Qed.

Lemma getProfile_wrong_length self p :
  length p <> (if _force_model_center self then 3%nat else 5%nat) ->
  getProfile self (Some p) = raise ValueError.
Proof.
  intros H. unfold getProfile. cbn [iter_array].
  destruct (_force_model_center self); rewrite rbind_ok.
  - rewrite (unpack3_length p H). reflexivity.
  - rewrite (unpack5_length p H). reflexivity.
Qed.

(** X13.  A parameter vector whose length does not fit the layout (3 with
    a forced model center, 5 without) is refused with [ValueError] by
    [getProfile], and by [draw] and flux-only [reflux] before anything is
    rendered. *)
Theorem wrong_length_refused E self star p fit_center :
  StarFit.params (Star.fit star) = Some p ->
  length p <> (if _force_model_center self then 3%nat else 5%nat) ->
  fit_center && _force_model_center self = false ->
  getProfile self (Some p) = raise ValueError /\
  draw E self star = (raise ValueError, []) /\
  reflux E self star fit_center = (raise ValueError, []).
Proof.
  intros Hp Hlen Hmode.
  pose proof (getProfile_wrong_length self p Hlen) as Hg.
  assert (Hd : draw E self star = (raise ValueError, []))
    by (rewrite draw_eq, Hp, Hg; reflexivity).
  split; [exact Hg|]. split; [exact Hd|].
  unfold reflux. rewrite Hmode. cbn [StarData.getImage]. cbv zeta. rewrite Hd. reflexivity.
Qed.

Lemma wrong_length_refused_witness :
  getProfile Example.model_n (Some [0; 0; 1; 0; 0]) = raise ValueError /\
  draw (Example.ext 0) Example.model_n (Example.star_with Example.cached (Some [0; 0; 1; 0; 0]))
    = (raise ValueError, []) /\
  reflux (Example.ext 0) Example.model_n
    (Example.star_with Example.cached (Some [0; 0; 1; 0; 0])) false
    = (raise ValueError, []).
Proof.
  apply (wrong_length_refused (Example.ext 0) Example.model_n
           (Example.star_with Example.cached (Some [0; 0; 1; 0; 0])) [0; 0; 1; 0; 0] false).
  - reflexivity.
  - cbn. discriminate.
  - reflexivity.
Defined.

(** ** The basis converter: the other round trip, the domain, the profiles *)

Section UnnormalizedRoundTrip.

Variables e0 e1 e2 : R.
Hypothesis e0_pos : 0 < e0.
Hypothesis e_lt_e0 : e1 ^ 2 + e2 ^ 2 < e0 ^ 2.

Local Abbreviation A := ((e1 / e0) ^ 2 + (e2 / e0) ^ 2).
Local Abbreviation s := (sqrt (1 - A)).

Lemma distortion_range : 0 <= A < 1.
Proof.
  assert (HA : A * e0 ^ 2 = e1 ^ 2 + e2 ^ 2) by (field; lra).
  split; [nra|]. apply Rnot_le_lt. intros Hge.
  assert (e0 ^ 2 <= A * e0 ^ 2) by nra. lra.
Qed.

Lemma root_range : 0 < s /\ s * s = 1 - A.
Proof.
  pose proof distortion_range. split.
  - apply sqrt_lt_R0. lra.
  - apply sqrt_sqrt. lra.
Qed.

Lemma from_unnormalized_closed :
  convert_from_unnormalized_basis e0 e1 e2
  = ok (sqrt (e0 * s * (1 / 2)), e1 / e0 * (1 / (1 + s)), e2 / e0 * (1 / (1 + s))).
Proof.
  pose proof distortion_range as HA. pose proof root_range as [Hs Hss].
  unfold convert_from_unnormalized_basis, Shear.of_e. cbv zeta.
  destruct (Rlt_dec 1 A) as [Hbad|_]; [exfalso; lra|].
  rewrite rbind_ok. unfold Shear.g1, Shear.g2, Shear._e2g. cbn [Shear._g fst snd].
  assert (Hroot : sqrt (e0 ^ 2 - e1 ^ 2 - e2 ^ 2) = e0 * s).
  { apply sqrt_sq_eq; [nra|].
    replace (e0 * s * (e0 * s)) with (e0 ^ 2 * (s * s)) by ring.
    rewrite Hss. field. lra. }
  rewrite Hroot. reflexivity.
Qed.

Lemma reduced_shear_sq :
  (e1 / e0 * (1 / (1 + s))) ^ 2 + (e2 / e0 * (1 / (1 + s))) ^ 2 = (1 - s) / (1 + s).
Proof.
  pose proof root_range as [Hs Hss]. remember s as t eqn:Ht. clear Ht.
  transitivity (A / (1 + t) ^ 2); [field; lra|].
  replace A with (1 - t * t) by lra. field. lra.
Qed.

Lemma to_unnormalized_closed :
  convert_to_unnormalized_basis (sqrt (e0 * s * (1 / 2)))
    (e1 / e0 * (1 / (1 + s))) (e2 / e0 * (1 / (1 + s)))
  = ok (e0, e1, e2).
Proof.
  pose proof root_range as [Hs Hss]. pose proof reduced_shear_sq as HG.
  assert (Hsc : 0 < e0 * s * (1 / 2)) by nra.
  assert (Hlt : (1 - s) / (1 + s) < 1).
  { assert (Heq : (1 - s) / (1 + s) = 1 - 2 * s / (1 + s)) by (field; lra).
    assert (0 < 2 * s / (1 + s)) by (apply Rdiv_lt_0_compat; lra). lra. }
  rewrite to_unnormalized_value;
    [|apply sqrt_lt_R0; exact Hsc | rewrite HG; exact Hlt].
  unfold unnormalized_e0, Shear._g2e. rewrite HG, (pow2_sqrt _ (Rlt_le _ _ Hsc)).
  unfold ok. f_equal. repeat (apply pair_equal_spec; split); field; lra.
Qed.

End UnnormalizedRoundTrip.

(** X14.  The conversions are inverse the other way round as well: for
    [e0 > 0] and [e1^2 + e2^2 < e0^2], converting (e0, e1, e2) to the
    normalized basis and back gives (e0, e1, e2) again. *)
Theorem unnormalized_round_trip (e0 e1 e2 : R) :
  0 < e0 -> e1 ^ 2 + e2 ^ 2 < e0 ^ 2 ->
  exists scale g1 g2,
    convert_from_unnormalized_basis e0 e1 e2 = ok (scale, g1, g2) /\
    convert_to_unnormalized_basis scale g1 g2 = ok (e0, e1, e2).
Proof.
  intros H0 He. eexists _, _, _. split.
  - apply from_unnormalized_closed; assumption.
  - apply to_unnormalized_closed; assumption.
Qed.

Lemma unnormalized_round_trip_witness :
  exists scale g1 g2,
    convert_from_unnormalized_basis 1 0 (3 / 5) = ok (scale, g1, g2) /\
    convert_to_unnormalized_basis scale g1 g2 = ok (1, 0, 3 / 5).
Proof. apply (unnormalized_round_trip 1 0 (3 / 5)); lra. Defined.

(** X15.  Outside their domain the conversions raise: a reduced shear with
    [g1^2 + g2^2 > 1] is refused by [convert_to_unnormalized_basis], second
    moments with [e1^2 + e2^2 > e0^2] by [convert_from_unnormalized_basis]. *)
Theorem conversions_out_of_domain (scale g1 g2 e0 e1 e2 : R) :
  1 < g1 ^ 2 + g2 ^ 2 ->
  e0 <> 0 -> e0 ^ 2 < e1 ^ 2 + e2 ^ 2 ->
  convert_to_unnormalized_basis scale g1 g2
    = raise (GalSimRangeError "Requested shear exceeds 1.") /\
  convert_from_unnormalized_basis e0 e1 e2
    = raise (GalSimRangeError "Requested distortion exceeds 1.").
Proof.
  intros Hg H0 He. split.
  - unfold convert_to_unnormalized_basis, Shear.of_g.
    destruct (Rlt_dec 1 _) as [_|Hn]; [reflexivity|].
    exfalso. apply Hn. rewrite <- sqrt_1. apply sqrt_lt_1; nra.
  - unfold convert_from_unnormalized_basis, Shear.of_e. cbv zeta.
    destruct (Rlt_dec 1 _) as [_|Hn]; [reflexivity|].
    exfalso. apply Hn.
    assert (HA : ((e1 / e0) ^ 2 + (e2 / e0) ^ 2) * e0 ^ 2 = e1 ^ 2 + e2 ^ 2) by (field; lra).
    assert (0 < e0 ^ 2) by nra.
    apply Rnot_le_lt. intros Hle. nra.
Qed.

Lemma conversions_out_of_domain_witness :
  convert_to_unnormalized_basis 1 1 1
    = raise (GalSimRangeError "Requested shear exceeds 1.") /\
  convert_from_unnormalized_basis 1 5 0
    = raise (GalSimRangeError "Requested distortion exceeds 1.").
Proof. apply (conversions_out_of_domain 1 1 1 1 5 0); lra. Defined.

(** X16.  The two bases describe the same profiles: for [scale > 0] and
    [g1^2 + g2^2 < 1], [getProfile] of a model in the unnormalized basis on
    the converted parameters is [getProfile] of the same model in the
    normalized basis on (scale, g1, g2), and both succeed. *)
Theorem getProfile_basis_equivalence self_n self_u scale g1 g2 du dv e0 e1 e2 :
  _unnormalized_basis self_n = false -> _unnormalized_basis self_u = true ->
  gsobj self_u = gsobj self_n ->
  _force_model_center self_u = _force_model_center self_n ->
  0 < scale -> g1 ^ 2 + g2 ^ 2 < 1 ->
  convert_to_unnormalized_basis scale g1 g2 = ok (e0, e1, e2) ->
  exists prof,
    getProfile self_n
      (Some (if _force_model_center self_n then [scale; g1; g2]
             else [du; dv; scale; g1; g2])) = ok prof /\
    getProfile self_u
      (Some (if _force_model_center self_n then [e0; e1; e2]
             else [du; dv; e0; e1; e2])) = ok prof.
Proof.
  intros Hn Hu Hg Hc Hs Hlt Hto.
  assert (Hfrom : convert_from_unnormalized_basis e0 e1 e2 = ok (scale, g1, g2)).
  { rewrite (to_unnormalized_value scale g1 g2 Hs Hlt) in Hto. unfold ok in Hto.
    injection Hto as <- <- <-. apply from_unnormalized_value; assumption. }
  unfold getProfile. rewrite Hn, Hu, Hg, Hc. cbn [iter_array].
  destruct (_force_model_center self_n); eexists; split;
    rewrite rbind_ok; cbn [unpack3 unpack5]; rewrite ?rbind_ok; cbv beta iota;
    rewrite ?Hfrom, ?rbind_ok; cbv beta iota;
    unfold gs_shear; rewrite (of_g_valid _ _ Hlt), !rbind_ok; reflexivity.
Qed.

Lemma getProfile_basis_equivalence_witness :
  exists prof,
    getProfile Example.model_n (Some [sqrt (2 / 5); 0; 1 / 3]) = ok prof /\
    getProfile Example.model_u (Some [1; 0; 3 / 5]) = ok prof.
Proof.
  apply (getProfile_basis_equivalence Example.model_n Example.model_u
           (sqrt (2 / 5)) 0 (1 / 3) 0 0 1 0 (3 / 5));
    try reflexivity; try exact convert_to_example_spec;
    try apply sqrt_two_fifths_pos; lra.
Defined.

(** ** What [fit] and [initialize] return *)

Lemma same_stamp_trans sd1 sd2 sd3 :
  same_stamp sd1 sd2 -> same_stamp sd2 sd3 -> same_stamp sd1 sd3.
Proof.
  intros (Hi & Hp & Hw & Ht & Hf & Ho & v & Hv) (Hi' & Hp' & Hw' & Ht' & Hf' & Ho' & v' & Hv').
  repeat split; try congruence.
  exists v'. rewrite Hv', Hv. apply insert_insert_eq.
Qed.

Lemma with_hsm_stamp E star star' log :
  with_hsm E star = (ok star', log) ->
  same_stamp (Star.data star) (Star.data star') /\ Star.fit star' = Star.fit star.
Proof.
  rewrite with_hsm_measures.
  destruct (hsm E star) as [[[[[[flux cenu] cenv] size] g1] g2] flag].
  destruct (flag =? 0)%Z; intros H; inversion H; subst; clear H.
  cbn [Star.data Star.fit]. split; [|reflexivity].
  unfold same_stamp, StarData.set_property.
  cbn [StarData.image StarData.image_pos StarData.weight StarData.pointing
       StarData.field_pos StarData.orig_weight StarData.properties].
  repeat split; eauto.
Qed.

Lemma reflux_data E self star fit_center star' log :
  reflux E self star fit_center = (ok star', log) -> Star.data star' = Star.data star.
Proof.
  unfold reflux. destruct (fit_center && _force_model_center self).
  - intros H. do 5 minv H. inversion H; subst. reflexivity.
  - cbn [StarData.getImage]. cbv zeta. intros H. minv H. inversion H; subst. reflexivity.
Qed.

Lemma getProfile_ok_length self params prof :
  getProfile self params = ok prof ->
  exists p, params = Some p /\
            length p = (if _force_model_center self then 3%nat else 5%nat).
Proof.
  intros H. destruct params as [p|]; [|rewrite getProfile_unset in H; discriminate].
  exists p. split; [reflexivity|].
  destruct (Nat.eq_dec (length p) (if _force_model_center self then 3%nat else 5%nat))
    as [Heq|Hne]; [exact Heq|].
  rewrite (getProfile_wrong_length self p Hne) in H. discriminate.
Qed.

(** The star [fit] builds from the star [initialize] hands it. *)
Lemma fit_body_inv I E self star fastfit star' log :
  fit_body I E self star fastfit = (ok star', log) ->
  exists s1 l1 flux du dv scale g1 g2 chisq,
    I star = (ok s1, l1) /\
    Star.data star' = Star.data s1 /\
    Star.fit star' =
      StarFit.mk (Some (if _force_model_center self then [scale; g1; g2]
                        else [du; dv; scale; g1; g2]))
        flux (if _force_model_center self then (du, dv) else (0, 0))
        None None (Some chisq)
        (Some (np.count_nonzero (Image.array (Star.weight s1)) - _nparams self)%Z).
Proof.
  unfold fit_body. rewrite hasattr_dict_hsm. cbn [negb]. intros H.
  minv H. rename a into s1. minv H.
  destruct a as [[[[[flux du] dv] scale] g1] g2].
  destruct (_force_model_center self); minv H; minv H; inversion H; subst; clear H;
    eexists s1, _, flux, du, dv, scale, g1, g2, _;
    (split; [eassumption|]); split; reflexivity.
Qed.

Lemma initialize_body_inv F E self star star' log :
  initialize_body F E self star = (ok star', log) ->
  exists s1 s2 l1 l2,
    with_hsm E star = (ok s1, l1) /\
    match StarFit.params (Star.fit s1) with
    | None =>
        exists l, F (Star.mk (Star.data s1)
                       (StarFit.mk (Some (if _force_model_center self then [1; 0; 0]
                                          else [0; 0; 1; 0; 0]))
                          1 (0, 0) None None None None))
                    (Some true) = (ok s2, l)
    | Some _ => s2 = s1
    end /\
    reflux E self s2 false = (ok star', l2).
Proof.
  unfold initialize_body. intros H. minv H. rename a into s1. minv H. rename a into s2.
  exists s1, s2. eexists _, _. split; [eassumption|]. split; [|eassumption].
  destruct (StarFit.params (Star.fit s1)).
  - inversion H1; reflexivity.
  - eauto.
Qed.

Lemma fit_rec_stamp (d : nat) E self :
  forall star fastfit star' log,
    fit_rec d E self star fastfit = (ok star', log) ->
    same_stamp (Star.data star) (Star.data star').
Proof.
  induction d as [|d IH]; intros star fastfit star' log H; [discriminate|].
  cbn [fit_rec] in H.
  apply fit_body_inv in H
    as (s1 & l1 & flux & du & dv & scale & g1 & g2 & chisq & Hi & Hdata & _).
  rewrite Hdata.
  apply initialize_body_inv in Hi as (t1 & t2 & m1 & m2 & Hw & Hmid & Hre).
  apply with_hsm_stamp in Hw as [Hst Hfit]. apply reflux_data in Hre. rewrite Hre.
  destruct (StarFit.params (Star.fit t1)).
  - subst t2. exact Hst.
  - destruct Hmid as [l Hf]. apply IH in Hf. cbn [Star.data] in Hf.
    exact (same_stamp_trans _ _ _ Hst Hf).
Qed.

Lemma initialize_stamp E self star star' log :
  initialize E self star = (ok star', log) ->
  same_stamp (Star.data star) (Star.data star').
Proof.
  unfold initialize. intros H.
  apply initialize_body_inv in H as (t1 & t2 & m1 & m2 & Hw & Hmid & Hre).
  apply with_hsm_stamp in Hw as [Hst Hfit]. apply reflux_data in Hre. rewrite Hre.
  destruct (StarFit.params (Star.fit t1)).
  - subst t2. exact Hst.
  - destruct Hmid as [l Hf]. apply fit_rec_stamp in Hf. cbn [Star.data] in Hf.
    exact (same_stamp_trans _ _ _ Hst Hf).
Qed.

(** X17.  [fit] and [initialize] leave the stamp alone: the data of a Star
    they return have the image, image position, weight, pointing, field
    position and original weight of the input, and its properties with the
    entry ["hsm"] set and no other change. *)
Theorem fit_initialize_keep_stamp E self star fastfit star' log :
  fit E self star fastfit = (ok star', log) \/ initialize E self star = (ok star', log) ->
  same_stamp (Star.data star) (Star.data star').
Proof.
  intros [H|H].
  - exact (fit_rec_stamp _ E self star fastfit star' log H).
  - exact (initialize_stamp E self star star' log H).
Qed.

Lemma fit_result E self star fastfit star' log :
  fit E self star fastfit = (ok star', log) ->
  exists flux du dv scale g1 g2 chisq,
    Star.fit star' =
      StarFit.mk (Some (if _force_model_center self then [scale; g1; g2]
                        else [du; dv; scale; g1; g2]))
        flux (if _force_model_center self then (du, dv) else (0, 0))
        None None (Some chisq)
        (Some (np.count_nonzero (Image.array (Star.weight star)) - _nparams self)%Z) /\
    decode_layout self (Star.fit star') = Some (du, dv, scale, g1, g2).
Proof.
  intros H. rewrite fit_unfold in H.
  apply fit_body_inv in H
    as (s1 & l1 & flux & du & dv & scale & g1 & g2 & chisq & Hi & Hdata & Hfit).
  apply initialize_stamp in Hi. destruct Hi as (_ & _ & Hw & _).
  exists flux, du, dv, scale, g1, g2, chisq. split.
  - rewrite Hfit. unfold Star.weight. rewrite Hw. reflexivity.
  - unfold decode_layout. rewrite Hfit. cbn [StarFit.params StarFit.center].
    destruct (_force_model_center self); reflexivity.
Qed.

(** X18.  The layout and the degrees of freedom of a fit: the StarFit of a
    Star returned by [fit] has three parameters and the center (du, dv)
    when the model center is forced, five parameters and the center (0, 0)
    otherwise; alpha and beta are unset, and [dof] is the number of nonzero
    weights of the input minus [_nparams]. *)
Theorem fit_layout_dof E self star fastfit star' log :
  fit E self star fastfit = (ok star', log) ->
  exists flux du dv scale g1 g2 chisq,
    Star.fit star' =
      StarFit.mk (Some (if _force_model_center self then [scale; g1; g2]
                        else [du; dv; scale; g1; g2]))
        flux (if _force_model_center self then (du, dv) else (0, 0))
        None None (Some chisq)
        (Some (np.count_nonzero (Image.array (Star.weight star)) - _nparams self)%Z) /\
    decode_layout self (Star.fit star') = Some (du, dv, scale, g1, g2).
Proof. apply fit_result. Qed.

(** X19.  [initialize] ends with a flux-only reflux: a Star it returns has
    set parameters of the length of the layout, and [dof] is the number of
    nonzero weights of the input minus 1. *)
Theorem initialize_params_dof E self star star' log :
  initialize E self star = (ok star', log) ->
  (exists p, StarFit.params (Star.fit star') = Some p /\
             length p = (if _force_model_center self then 3%nat else 5%nat)) /\
  StarFit.dof (Star.fit star')
  = Some (np.count_nonzero (Image.array (Star.weight star)) - 1)%Z.
Proof.
  intros H. pose proof (initialize_stamp E self star star' log H) as (_ & _ & Hw & _).
  unfold initialize in H.
  apply initialize_body_inv in H as (t1 & t2 & m1 & m2 & _ & _ & Hre).
  pose proof (reflux_data _ _ _ _ _ _ Hre) as Hdata.
  destruct (reflux_flux_only_inv E self t2 false star' m2 eq_refl Hre) as [prof0 Hp].
  rewrite (reflux_flux_only_ok E self t2 false prof0 eq_refl Hp) in Hre.
  inversion Hre; subst star'; clear Hre. cbn [Star.fit StarFit.params StarFit.dof].
  split.
  - exact (getProfile_ok_length _ _ _ Hp).
  - cbn [Star.data] in Hdata, Hw. unfold Star.weight. rewrite Hw. reflexivity.
Qed.

(** *** [initialize] and [fit] on [Example.star_n] *)

Lemma getProfile_example :
  getProfile Example.model_n (Some [1; 0; 0]) = ok example_profile.
Proof. exact getProfile_example_n. Qed.

(** A star on the example stamp whose parameters are set to (1, 0, 0). *)
Lemma initialize_example_set props :
  exists s l,
    initialize (Example.ext 0) Example.model_n (Example.star_with props (Some [1; 0; 0]))
      = (ok s, l) /\
    StarData.properties (Star.data s) !! "hsm" = Some (PTuple [1; 0; 0; 1; 0; 0]) /\
    StarFit.params (Star.fit s) = Some [1; 0; 0] /\
    StarFit.center (Star.fit s) = (0, 0).
Proof.
  rewrite initialize_unfold. unfold initialize_body. rewrite with_hsm_measures.
  cbn [hsm Example.ext Example.hsm_const Z.eqb]. rewrite mbind_ok_log. cbn [fst snd].
  cbn [Example.star_with Star.fit StarFit.params]. cbv beta iota. rewrite mbind_mret.
  match goal with
  | |- context [reflux _ _ ?s false] =>
      rewrite (reflux_flux_only_ok (Example.ext 0) Example.model_n s false
                 example_profile eq_refl getProfile_example)
  end.
  eexists _, _. split; [reflexivity|].
  cbn [Star.data Star.fit StarFit.params StarFit.center StarData.set_property
       StarData.properties].
  rewrite lookup_insert_eq. repeat split; reflexivity.
Qed.

Lemma fit_example_set props :
  exists s l,
    fit (Example.ext 0) Example.model_n (Example.star_with props (Some [1; 0; 0]))
      (Some true) = (ok s, l) /\
    StarFit.params (Star.fit s) = Some [1; 0; 0].
Proof.
  destruct (initialize_example_set props) as (s0 & l0 & Hinit & Hhsm & Hparams & Hcenter).
  rewrite fit_unfold. unfold fit_body. rewrite hasattr_dict_hsm. cbn [negb].
  rewrite Hinit, mbind_ok_log. cbn [fst snd].
  assert (Hp : getProfile Example.model_n (StarFit.params (Star.fit s0)) = ok example_profile)
    by (rewrite Hparams; exact getProfile_example).
  assert (Hm : fst (moment_fit (Example.ext 0) Example.model_n s0)
               = ok (StarFit.flux (Star.fit s0), 0, 0, 1, 0, 0)).
  { apply (moment_fit_fixed_point (Example.ext 0) Example.model_n s0 example_profile
             0 0 1 0 0 1 0 0 1 0 0); try reflexivity; try exact Hp; try exact Hhsm; try lra.
    unfold decode_layout. rewrite Hparams, Hcenter. reflexivity. }
  destruct (moment_fit (Example.ext 0) Example.model_n s0) as [r lm]. cbn [fst] in Hm. subst r.
  rewrite mbind_ok_log. cbn [fst snd].
  cbn [Example.model_n GSObjectModel_init _force_model_center].
  change (getProfile _ (Some [1; 0; 0])) with (getProfile Example.model_n (Some [1; 0; 0])).
  rewrite getProfile_example, mbind_lift_ok.
  unfold call_drawImage. rewrite mbind_ok_log. cbn [fst snd mret].
  eexists _, _. split; reflexivity.
Qed.

Lemma fit_example :
  exists s l, fit (Example.ext 0) Example.model_n Example.star_n (Some true) = (ok s, l).
Proof. destruct (fit_example_set Example.cached) as (s & l & H & _). eauto. Qed.

(** [Example.star_unset]: the parameters are seeded, fitted by moments and
    the flux is set. *)
Lemma initialize_example_unset :
  exists s l,
    initialize (Example.ext 0) Example.model_n Example.star_unset = (ok s, l).
Proof.
  rewrite initialize_unfold. unfold initialize_body. rewrite with_hsm_measures.
  cbn [hsm Example.ext Example.hsm_const Z.eqb]. rewrite mbind_ok_log. cbn [fst snd].
  cbn [Example.star_unset Example.star_with Star.fit StarFit.params]. cbv beta iota.
  cbn [Example.model_n GSObjectModel_init _force_model_center].
  destruct (fit_example_set (<["hsm" := PTuple [1; 0; 0; 1; 0; 0]]> Example.cached))
    as (s1 & l1 & Hfit & Hparams).
  change (Star.mk _ (StarFit.mk (Some [1; 0; 0]) 1 (0, 0) None None None None))
    with (Example.star_with (<["hsm" := PTuple [1; 0; 0; 1; 0; 0]]> Example.cached)
            (Some [1; 0; 0])).
  rewrite Hfit, mbind_ok_log. cbn [fst snd].
  assert (Hp : getProfile Example.model_n (StarFit.params (Star.fit s1)) = ok example_profile)
    by (rewrite Hparams; exact getProfile_example).
  rewrite (reflux_flux_only_ok (Example.ext 0) Example.model_n s1 false example_profile
             eq_refl Hp).
  eexists _, _. reflexivity.
Qed.

Lemma fit_initialize_keep_stamp_witness :
  exists star' log,
    (fit (Example.ext 0) Example.model_n Example.star_n (Some true) = (ok star', log) \/
     initialize (Example.ext 0) Example.model_n Example.star_n = (ok star', log)) /\
    same_stamp (Star.data Example.star_n) (Star.data star').
Proof.
  destruct fit_example as (s & l & H). exists s, l. split; [left; exact H|].
  apply (fit_initialize_keep_stamp (Example.ext 0) Example.model_n Example.star_n
           (Some true) s l).
  left. exact H.
Defined.

Lemma fit_layout_dof_witness :
  exists star' log,
    fit (Example.ext 0) Example.model_n Example.star_n (Some true) = (ok star', log) /\
    exists flux du dv scale g1 g2 chisq,
      Star.fit star' =
        StarFit.mk (Some (if _force_model_center Example.model_n then [scale; g1; g2]
                          else [du; dv; scale; g1; g2]))
          flux (if _force_model_center Example.model_n then (du, dv) else (0, 0))
          None None (Some chisq)
          (Some (np.count_nonzero (Image.array (Star.weight Example.star_n))
                 - _nparams Example.model_n)%Z) /\
      decode_layout Example.model_n (Star.fit star') = Some (du, dv, scale, g1, g2).
Proof.
  destruct fit_example as (s & l & H). exists s, l. split; [exact H|].
  exact (fit_layout_dof (Example.ext 0) Example.model_n Example.star_n (Some true) s l H).
Defined.

Lemma initialize_params_dof_witness :
  exists star' log,
    initialize (Example.ext 0) Example.model_n Example.star_unset = (ok star', log) /\
    (exists p, StarFit.params (Star.fit star') = Some p /\
               length p = (if _force_model_center Example.model_n then 3%nat else 5%nat)) /\
    StarFit.dof (Star.fit star')
    = Some (np.count_nonzero (Image.array (Star.weight Example.star_unset)) - 1)%Z.
Proof.
  destruct initialize_example_unset as (s & l & H).
  exists s, l. split; [exact H|].
  exact (initialize_params_dof (Example.ext 0) Example.model_n Example.star_unset s l H).
Defined.

(** ** Where the minimizer is not called *)

Lemma nm_mbind {A B} (m : M A) (f : A -> M B) :
  no_minimize (snd m) -> (forall a, no_minimize (snd (f a))) ->
  no_minimize (snd (mbind m f)).
Proof.
  intros Hm Hf. destruct m as [[e|a] l]; cbn [mbind snd] in *; [exact Hm|].
  specialize (Hf a). destruct (f a) as [r l']. cbn [snd] in *.
  apply Forall_app. split; assumption.
Qed.

Lemma nm_nil {A} (r : Result A) : no_minimize (snd (r, @nil Call)).
Proof. constructor. Qed.

Lemma nm_call_hsm E star : no_minimize (snd (call_hsm E star)).
Proof. repeat constructor. Qed.

Lemma nm_call_drawImage E prof image method offset :
  no_minimize (snd (call_drawImage E prof image method offset)).
Proof. repeat constructor. Qed.

Lemma nm_draw E self star : no_minimize (snd (draw E self star)).
Proof.
  rewrite draw_eq. destruct (getProfile self _); [apply nm_nil|]. repeat constructor.
Qed.

Ltac nm_step :=
  first [ apply nm_nil | apply nm_call_hsm | apply nm_call_drawImage | apply nm_draw
        | apply nm_mbind; [|intros ?]
        | match goal with
          | |- no_minimize (snd (match ?x with _ => _ end)) => destruct x
          | |- no_minimize (snd (if ?x then _ else _)) => destruct x
          end ].

Lemma nm_moment_fit E self star : no_minimize (snd (moment_fit E self star)).
Proof. unfold moment_fit, lift, mret, mraise. repeat nm_step. Qed.

Lemma nm_with_hsm E star : no_minimize (snd (with_hsm E star)).
Proof. unfold with_hsm, lift, mret, mraise. repeat nm_step. Qed.

Lemma nm_reflux_flux_only E self star : no_minimize (snd (reflux E self star false)).
Proof.
  unfold reflux. cbn [andb StarData.getImage]. cbv zeta. unfold mret. repeat nm_step.
Qed.

Lemma nm_fit_body I E self star fastfit :
  (forall s, no_minimize (snd (I s))) ->
  match fastfit with None => _fastfit self | Some b => b end = true ->
  no_minimize (snd (fit_body I E self star fastfit)).
Proof.
  intros HI Hff. unfold fit_body. rewrite Hff, hasattr_dict_hsm. cbn [negb].
  unfold lift, mret. apply nm_mbind; [apply HI|intros s1].
  apply nm_mbind; [apply nm_moment_fit|intros v]. repeat nm_step.
Qed.

Lemma nm_initialize_body F E self star :
  (forall s, no_minimize (snd (F s (Some true)))) ->
  no_minimize (snd (initialize_body F E self star)).
Proof.
  intros HF. unfold initialize_body.
  apply nm_mbind; [apply nm_with_hsm|intros s1].
  apply nm_mbind; [|intros s2; apply nm_reflux_flux_only].
  destruct (StarFit.params (Star.fit s1)); [apply nm_nil|apply HF].
Qed.

Lemma nm_fit_rec (d : nat) E self :
  forall star, no_minimize (snd (fit_rec d E self star (Some true))).
Proof.
  induction d as [|d IH]; intros star; [apply nm_nil|].
  cbn [fit_rec]. apply nm_fit_body; [|reflexivity].
  intros s. apply nm_initialize_body, IH.
Qed.

Lemma nm_initialize E self star : no_minimize (snd (initialize E self star)).
Proof. unfold initialize. apply nm_initialize_body, nm_fit_rec. Qed.

(** X20.  [initialize] never calls the nonlinear minimizer, whatever the
    configured fitting mode and whether it returns or raises: it seeds by
    the moment fit and ends with the flux-only reflux. *)
Theorem initialize_no_minimizer E self star :
  no_minimize (snd (initialize E self star)).
Proof. apply nm_initialize. Qed.

(** X21.  Neither does [fit] in the fast mode, asked for by the argument or,
    without one, by the configuration. *)
Theorem fastfit_no_minimizer E self star fastfit :
  match fastfit with None => _fastfit self | Some b => b end = true ->
  no_minimize (snd (fit E self star fastfit)).
Proof.
  intros Hff. rewrite fit_unfold. apply nm_fit_body; [|exact Hff].
  intros s. apply nm_initialize.
Qed.

Lemma fastfit_no_minimizer_witness :
  no_minimize (snd (fit (Example.ext 0) Example.model_n Example.star_n (Some true))).
Proof.
  apply (fastfit_no_minimizer (Example.ext 0) Example.model_n Example.star_n (Some true)).
  reflexivity.
Defined.

(** ** Degrees of freedom and masked pixels *)

(** X22.  For a model built by the constructor the degrees of freedom of a
    fit are the nonzero weights minus the length of the fitted parameter
    vector. *)
Theorem fit_dof_counts_parameters E E' gsobj0 fastfit0 fmc include_pixel ub
    star fastfit star' log :
  fit E (GSObjectModel_init E' gsobj0 fastfit0 fmc include_pixel ub) star fastfit
    = (ok star', log) ->
  exists p,
    StarFit.params (Star.fit star') = Some p /\
    StarFit.dof (Star.fit star')
    = Some (np.count_nonzero (Image.array (Star.weight star)) - Z.of_nat (length p))%Z.
Proof.
  intros H. apply fit_result in H
    as (flux & du & dv & scale & g1 & g2 & chisq & Hfit & _).
  rewrite Hfit. cbn [StarFit.params StarFit.dof GSObjectModel_init _force_model_center
                     _nparams].
  eexists. split; [reflexivity|]. destruct fmc; reflexivity.
Qed.

Lemma fit_dof_counts_parameters_witness :
  exists star' log p,
    fit (Example.ext 0) Example.model_n Example.star_n (Some true) = (ok star', log) /\
    StarFit.params (Star.fit star') = Some p /\
    StarFit.dof (Star.fit star')
    = Some (np.count_nonzero (Image.array (Star.weight Example.star_n))
            - Z.of_nat (length p))%Z.
Proof.
  destruct fit_example as (s & l & H).
  destruct (fit_dof_counts_parameters (Example.ext 0) (Example.ext 0) Example.gaussian
              false true true false Example.star_n (Some true) s l H) as (p & Hp & Hd).
  exists s, l, p. split; [exact H|]. split; [exact Hp | exact Hd].
Defined.

Lemma masked_residual (w m d : list R) (i : nat) :
  w !! i = Some 0 ->
  (i < length (np.mul (np.sqrt w) (np.sub m d)))%nat ->
  np.mul (np.sqrt w) (np.sub m d) !! i = Some 0.
Proof.
  unfold np.mul, np.sqrt, np.sub. revert m d i.
  induction w as [|x w IH]; intros m d i Hw Hlen; [discriminate|].
  destruct m as [|y m], d as [|z d]; cbn [zip_with map length] in *; try lia.
  destruct i as [|i].
  - cbn in Hw. injection Hw as ->. cbn. rewrite sqrt_0. f_equal. ring.
  - cbn in Hw. cbn [lookup]. apply (IH m d i Hw). lia.
Qed.

(** X23.  A pixel of weight zero has residual zero: in the vector
    [_lmfit_resid] returns, every entry at the index of a zero weight is 0,
    as the degrees of freedom count the nonzero weights only. *)
Theorem resid_zero_weight E self q star chi log i :
  _lmfit_resid E self q star = (ok chi, log) ->
  Image.array (Star.weight star) !! i = Some 0 ->
  (i < length chi)%nat ->
  chi !! i = Some 0.
Proof.
  intros H Hw Hi. unfold _lmfit_resid in H. cbn [StarData.getImage] in H. cbv zeta in H.
  minv H. destruct a as [[[[[flux du] dv] scale] g1] g2].
  minv H. unfold call_drawImage in H. rewrite mbind_ok_log in H.
  inversion H; subst; clear H. apply masked_residual; assumption.
Qed.

Lemma resid_zero_weight_witness :
  exists chi log,
    _lmfit_resid (Example.ext 0) Example.model_n
      (param_set false 1 0 0 1 0 0 true true true) example_masked = (ok chi, log) /\
    chi !! 1%nat = Some 0.
Proof.
  assert (H : _lmfit_resid (Example.ext 0) Example.model_n
                (param_set false 1 0 0 1 0 0 true true true) example_masked
              = (ok _, _))
    by (apply (lmfit_resid_value _ _ _ _ 1 0 0 1 0 0 (Shear.mk (0, 0)));
        [reflexivity | exact of_g_zero]).
  eexists _, _. split; [exact H|].
  apply (resid_zero_weight (Example.ext 0) Example.model_n _ example_masked _ _ 1%nat H).
  - reflexivity.
  - cbn. lia.
Defined.
